(** * Block-type registry selectors (packages/blocks/src/store/selectors.js)

    A shallow embedding of the selector layer of the blocks store and the
    properties of its query functions.

    Modelling conventions.
    - A JavaScript string is the list of its UTF-16 code units ([list N]).
    - A JavaScript value is a term of [value]; a plain object is the finite
      map of its own properties ([gmap]), so inherited properties are not
      part of the model.  The type map [state.blockTypes] is enumerated by
      [Object.values] and by lodash's [filter], hence it is kept as an
      association list in enumeration order.
    - Parameters have the types their JSDoc gives them: names, feature paths
      and search terms are strings, a scope is a string or missing, a name or
      type is any value.
    - A function value is a reference [VFun f]; what calling it does is given
      by the environment [call], which may answer with a thrown error.
    - Code that can throw returns a [result].
    - [rememo]'s [createSelector] caches results per dependant references
      and argument list; for a state that is replaced rather than mutated it
      returns what the wrapped function returns, so the memoised selectors
      are modelled by the functions they wrap.  That these depend on their
      declared dependants only is shown below. *)

From stdpp Require Import base option list gmap strings.
From Stdlib Require Import NArith ZArith.

#[local] Set Warnings "-register-all".

(** ** JavaScript strings *)

Abbreviation jsstring := (list N).

(** An ASCII literal as a JavaScript string. *)
Definition js (s : string) : jsstring :=
  (fun a => N.of_nat (Ascii.nat_of_ascii a)) <$> String.list_ascii_of_string s.

Arguments js : simpl never.

Module JsString.

(** [s.split(sep)] for a separator of one code unit. *)
Fixpoint split (sep : N) (s : jsstring) : list jsstring :=
  match s with
  | [] => [[]]
  | c :: s' =>
      if N.eqb c sep then [] :: split sep s'
      else match split sep s' with
           | seg :: segs => (c :: seg) :: segs
           | [] => [[c]]
           end
  end.


Fixpoint startsWith (s t : jsstring) {struct t} : bool :=
  match t, s with
  | [], _ => true
  | _ :: _, [] => false
  | d :: t', c :: s' => N.eqb c d && startsWith s' t'
  end.

(** [s.indexOf(t) > -1]: some position of [s] starts an occurrence of [t]. *)
Fixpoint includes (s t : jsstring) : bool :=
  startsWith s t ||
  match s with
  | [] => false
  | _ :: s' => includes s' t
  end.

(** What the specification calls a substring. *)
Definition substring_of (t s : jsstring) : Prop :=
  ∃ pre post, s = pre ++ t ++ post.

(** WhiteSpace and LineTerminator code units of ECMAScript, which
    [String.prototype.trim] strips. *)
Definition isWhiteSpace (c : N) : bool :=
  ((9 <=? c) && (c <=? 13) || (c =? 32) || (c =? 160) || (c =? 0x1680)
   || (0x2000 <=? c) && (c <=? 0x200a)
   || (c =? 0x2028) || (c =? 0x2029) || (c =? 0x202f) || (c =? 0x205f)
   || (c =? 0x3000) || (c =? 0xfeff))%N.

Fixpoint trimStart (s : jsstring) : jsstring :=
  match s with
  | c :: s' => if isWhiteSpace c then trimStart s' else s
  | [] => []
  end.

Definition trimEnd (s : jsstring) : jsstring :=
  reverse (trimStart (reverse s)).

Definition trim (s : jsstring) : jsstring := trimEnd (trimStart s).

(** A canonical array index: decimal digits without a leading zero. *)
Definition isDigit (c : N) : bool := ((48 <=? c) && (c <=? 57))%N.

Definition digitsValue (s : jsstring) : nat :=
  foldl (fun acc c => 10 * acc + N.to_nat (c - 48)) 0 s.

Definition arrayIndex (k : jsstring) : option nat :=
  match k with
  | [] => None
  | c :: rest =>
      if forallb isDigit k && (negb (N.eqb c 48) || bool_decide (rest = []))
      then Some (digitsValue k) else None
  end.

End JsString.

(** ** JavaScript values *)

(** A reference to a function object. *)
Definition fn := nat.

(** Numbers are restricted to the integers; [NaN], infinities and fractions
    do not occur in what the selectors inspect. *)
Inductive value : Type :=
| VUndefined
| VNull
| VBool (b : bool)
| VNum (n : Z)
| VStr (s : jsstring)
| VArr (elems : list value)
| VObj (props : gmap jsstring value)
| VFun (f : fn).

Abbreviation object := (gmap jsstring value).

Inductive error : Type :=
| TypeError
| Thrown (v : value).

Inductive result (A : Type) : Type :=
| Ok (a : A)
| Throw (e : error).

Arguments Ok {A} a.
Arguments Throw {A} e.

#[global] Instance result_ret : MRet result := fun _ a => Ok a.

#[global] Instance result_bind : MBind result :=
  fun _ _ f m => match m with Ok a => f a | Throw e => Throw e end.

(** What the host supplies: the built-in [String.prototype.toLowerCase]
    (the Unicode case tables), the behaviour of the function objects held
    by the state ([call f this args]), and the conversions of values other
    than strings to strings (ECMAScript's ToString, lodash's baseToString). *)
Record Host : Type := {
  toLowerCase : jsstring → jsstring;
  call : fn → value → list value → result value;
  ToString : value → jsstring;
  baseToString : value → jsstring;
}.

Module Js.

(** ToBoolean. *)
Definition truthy (v : value) : bool :=
  match v with
  | VUndefined | VNull => false
  | VBool b => b
  | VNum n => negb (Z.eqb n 0)
  | VStr s => negb (bool_decide (s = []))
  | VArr _ | VObj _ | VFun _ => true
  end.

(** [v == null]. *)
Definition nullish (v : value) : bool :=
  match v with
  | VUndefined | VNull => true
  | _ => false
  end.

(** [a || b]. *)
Definition or (a b : value) : value := if truthy a then a else b.

(** An own property of a plain object; [undefined] when there is none. *)
Definition own (o : object) (k : jsstring) : value :=
  default VUndefined (o !! k).

(** [v[k]] for a [v] that is neither [undefined] nor [null]: own
    properties of objects, indices and [length] of arrays and strings. *)
Definition getProp (v : value) (k : jsstring) : value :=
  match v with
  | VObj o => own o k
  | VArr l =>
      match JsString.arrayIndex k with
      | Some i => default VUndefined (l !! i)
      | None =>
          if bool_decide (k = js "length") then VNum (Z.of_nat (length l))
          else VUndefined
      end
  | VStr s =>
      match JsString.arrayIndex k with
      | Some i => from_option (fun c => VStr [c]) VUndefined (s !! i)
      | None =>
          if bool_decide (k = js "length") then VNum (Z.of_nat (length s))
          else VUndefined
      end
  | _ => VUndefined
  end.

(** The member expression [v.k], which throws on [undefined] and [null]. *)
Definition member (v : value) (k : jsstring) : result value :=
  if nullish v then Throw TypeError else Ok (getProp v k).

(** The optional chain [v?.k]. *)
Definition optionalMember (v : value) (k : jsstring) : value :=
  if nullish v then VUndefined else getProp v k.

(** A property key computed from a value, as in [o[v]]. *)
Definition toPropertyKey (host : Host) (v : value) : jsstring :=
  match v with
  | VStr s => s
  | _ => ToString host v
  end.

(** The method call [receiver.m(args)] where [m] is the value of the
    property: anything but a function is not callable. *)
Definition callMethod (host : Host) (receiver m : value) (args : list value)
  : result value :=
  match m with
  | VFun f => call host f receiver args
  | _ => Throw TypeError
  end.

Definition isStr (s : jsstring) (v : value) : bool :=
  match v with
  | VStr t => bool_decide (t = s)
  | _ => false
  end.

(** [receiver.includes(s)] for a string argument [s]: the array method
    compares elements with SameValueZero, the string method looks for an
    occurrence, an object may carry a method of that name of its own. *)
Definition includesMethod (host : Host) (receiver : value) (s : jsstring)
  : result value :=
  match receiver with
  | VUndefined | VNull => Throw TypeError
  | VArr l => Ok (VBool (existsb (isStr s) l))
  | VStr t => Ok (VBool (JsString.includes t s))
  | VObj o => callMethod host receiver (own o (js "includes")) [VStr s]
  | VBool _ | VNum _ | VFun _ => Throw TypeError
  end.

(** [array.find(callback)]; the callback may throw. *)
Fixpoint find {A : Type} (callback : A → result value) (array : list A)
  : result (option A) :=
  match array with
  | [] => Ok None
  | x :: rest =>
      r ← callback x;
      if truthy r then Ok (Some x) else find callback rest
  end.

(** [array.filter(callback)]; the callback may throw. *)
Fixpoint filter {A : Type} (callback : A → result value) (array : list A)
  : result (list A) :=
  match array with
  | [] => Ok []
  | x :: rest =>
      r ← callback x;
      kept ← filter callback rest;
      Ok (if truthy r then x :: kept else kept)
  end.

(** [array.map(callback)]; the callback may throw. *)
Fixpoint map {A B : Type} (callback : A → result B) (array : list A)
  : result (list B) :=
  match array with
  | [] => Ok []
  | x :: rest =>
      y ← callback x;
      ys ← map callback rest;
      Ok (y :: ys)
  end.

End Js.

(** ** The lodash functions the selectors use *)

Module Lodash.

(** [toString(value)]: the empty string for [undefined] and [null]. *)
Definition toString (host : Host) (v : value) : jsstring :=
  match v with
  | VUndefined | VNull => []
  | VStr s => s
  | _ => baseToString host v
  end.

(** The table [deburredLetters], grouped by replacement: Latin-1
    Supplement letters first, Latin Extended-A letters second. *)
Definition deburredLetters : list (jsstring * list N) :=
  ([
    (js "A", [0xc0; 0xc1; 0xc2; 0xc3; 0xc4; 0xc5]);
    (js "a", [0xe0; 0xe1; 0xe2; 0xe3; 0xe4; 0xe5]);
    (js "C", [0xc7]);
    (js "c", [0xe7]);
    (js "D", [0xd0]);
    (js "d", [0xf0]);
    (js "E", [0xc8; 0xc9; 0xca; 0xcb]);
    (js "e", [0xe8; 0xe9; 0xea; 0xeb]);
    (js "I", [0xcc; 0xcd; 0xce; 0xcf]);
    (js "i", [0xec; 0xed; 0xee; 0xef]);
    (js "N", [0xd1]);
    (js "n", [0xf1]);
    (js "O", [0xd2; 0xd3; 0xd4; 0xd5; 0xd6; 0xd8]);
    (js "o", [0xf2; 0xf3; 0xf4; 0xf5; 0xf6; 0xf8]);
    (js "U", [0xd9; 0xda; 0xdb; 0xdc]);
    (js "u", [0xf9; 0xfa; 0xfb; 0xfc]);
    (js "Y", [0xdd]);
    (js "y", [0xfd; 0xff]);
    (js "Ae", [0xc6]);
    (js "ae", [0xe6]);
    (js "Th", [0xde]);
    (js "th", [0xfe]);
    (js "ss", [0xdf]);
    (js "A", [0x100; 0x102; 0x104]);
    (js "a", [0x101; 0x103; 0x105]);
    (js "C", [0x106; 0x108; 0x10a; 0x10c]);
    (js "c", [0x107; 0x109; 0x10b; 0x10d]);
    (js "D", [0x10e; 0x110]);
    (js "d", [0x10f; 0x111]);
    (js "E", [0x112; 0x114; 0x116; 0x118; 0x11a]);
    (js "e", [0x113; 0x115; 0x117; 0x119; 0x11b]);
    (js "G", [0x11c; 0x11e; 0x120; 0x122]);
    (js "g", [0x11d; 0x11f; 0x121; 0x123]);
    (js "H", [0x124; 0x126]);
    (js "h", [0x125; 0x127]);
    (js "I", [0x128; 0x12a; 0x12c; 0x12e; 0x130]);
    (js "i", [0x129; 0x12b; 0x12d; 0x12f; 0x131]);
    (js "J", [0x134]);
    (js "j", [0x135]);
    (js "K", [0x136]);
    (js "k", [0x137; 0x138]);
    (js "L", [0x139; 0x13b; 0x13d; 0x13f; 0x141]);
    (js "l", [0x13a; 0x13c; 0x13e; 0x140; 0x142]);
    (js "N", [0x143; 0x145; 0x147; 0x14a]);
    (js "n", [0x144; 0x146; 0x148; 0x14b]);
    (js "O", [0x14c; 0x14e; 0x150]);
    (js "o", [0x14d; 0x14f; 0x151]);
    (js "R", [0x154; 0x156; 0x158]);
    (js "r", [0x155; 0x157; 0x159]);
    (js "S", [0x15a; 0x15c; 0x15e; 0x160]);
    (js "s", [0x15b; 0x15d; 0x15f; 0x161]);
    (js "T", [0x162; 0x164; 0x166]);
    (js "t", [0x163; 0x165; 0x167]);
    (js "U", [0x168; 0x16a; 0x16c; 0x16e; 0x170; 0x172]);
    (js "u", [0x169; 0x16b; 0x16d; 0x16f; 0x171; 0x173]);
    (js "W", [0x174]);
    (js "w", [0x175]);
    (js "Y", [0x176; 0x178]);
    (js "y", [0x177]);
    (js "Z", [0x179; 0x17b; 0x17d]);
    (js "z", [0x17a; 0x17c; 0x17e]);
    (js "IJ", [0x132]);
    (js "ij", [0x133]);
    (js "Oe", [0x152]);
    (js "oe", [0x153]);
    (js "'n", [0x149]);
    (js "s", [0x17f])
  ])%N.

(** [reLatin]: the code units of the two blocks that are letters. *)
Definition reLatin (c : N) : bool :=
  ((0xc0 <=? c) && (c <=? 0xd6) || (0xd8 <=? c) && (c <=? 0xf6)
   || (0xf8 <=? c) && (c <=? 0xff) || (0x100 <=? c) && (c <=? 0x17f))%N.

(** [reComboMark]: combining diacritical marks, combining half marks and
    combining diacritical marks for symbols. *)
Definition reComboMark (c : N) : bool :=
  ((0x300 <=? c) && (c <=? 0x36f) || (0xfe20 <=? c) && (c <=? 0xfe2f)
   || (0x20d0 <=? c) && (c <=? 0x20ff))%N.

(** [deburrLetter]: a property read on the table, whose absent answer
    [String.prototype.replace] would print as a string. *)
Definition deburrLetter (c : N) : jsstring :=
  match List.find (fun entry => existsb (N.eqb c) entry.2) deburredLetters with
  | Some entry => entry.1
  | None => js "undefined"
  end.

(** [deburr(string)]. *)
Definition deburr (host : Host) (v : value) : jsstring :=
  let string := toString host v in
  let latin := flat_map (fun c => if reLatin c then deburrLetter c else [c]) string in
  List.filter (fun c => negb (reComboMark c)) latin.

(** [baseGet]: follows [path] while the object at hand is neither
    [undefined] nor [null]; the walk stopping short yields [undefined]. *)
Fixpoint baseGet (object : value) (path : list jsstring) : value :=
  match path with
  | [] => object
  | key :: rest =>
      if Js.nullish object then VUndefined
      else baseGet (Js.getProp object key) rest
  end.

(** [get(object, path, defaultValue)] for a path given as an array. *)
Definition get (object : value) (path : list jsstring) (defaultValue : value)
  : value :=
  let result :=
    if Js.nullish object then VUndefined
    else match path with
         | [] => VUndefined
         | _ :: _ => baseGet object path
         end in
  match result with
  | VUndefined => defaultValue
  | _ => result
  end.

(** What lodash iterates over in a collection: the elements of an array,
    the characters of a string, the own property values of an object
    (their order plays no role for the pure callbacks used here). *)
Definition elements (collection : value) : list value :=
  match collection with
  | VArr l => l
  | VStr s => (fun c => VStr [c]) <$> s
  | VObj o => (map_to_list o).*2
  | _ => []
  end.

(** [some(collection, predicate)]. *)
Definition some (collection : value) (predicate : value → bool) : bool :=
  existsb predicate (elements collection).

(** [includes(collection, value)] for a string [value]: an occurrence
    in a string collection, a strictly equal element otherwise. *)
Definition includes (collection : value) (target : jsstring) : bool :=
  match collection with
  | VStr s => JsString.includes s target
  | _ => existsb (Js.isStr target) (elements collection)
  end.

(** [filter(collection, predicate)] and [map(collection, iteratee)] on the
    values of a collection already enumerated. *)
Definition filter {A : Type} (collection : list A) (predicate : A → bool)
  : list A := List.filter predicate collection.

Definition map {A B : Type} (collection : list A) (iteratee : A → B)
  : list B := List.map iteratee collection.

(** The property shorthand of an iteratee: [object => object[key]]. *)
Definition property (key : jsstring) (o : object) : bool :=
  Js.truthy (Js.own o key).

(** [findLast(array, predicate)]: scans from the right; nothing is found
    in an absent array. *)
Definition findLast {A : Type} (array : option (list A)) (predicate : A → bool)
  : option A :=
  match array with
  | Some l => List.find predicate (reverse l)
  | None => None
  end.

(** [first(array)]. *)
Definition first {A : Type} (array : option (list A)) : option A :=
  match array with
  | Some (x :: _) => Some x
  | _ => None
  end.

End Lodash.

(** ** The state *)

(** A BlockType and a BlockVariation are plain objects. *)
Abbreviation BlockType := (gmap jsstring value).
Abbreviation BlockVariation := (gmap jsstring value).

(** The blocks state as the reducer builds it.  [blockTypes] maps a block
    name to its BlockType, in enumeration order; [blockVariations] maps a block
    name to the array of its variations. *)
Record State : Type := {
  blockTypes : list (jsstring * BlockType);
  blockStyles : gmap jsstring value;
  blockVariations : gmap jsstring (list BlockVariation);
  defaultBlockName : value;
  freeformFallbackBlockName : value;
  unregisteredFallbackBlockName : value;
  groupingBlockName : value;
  categories : value;
  collections : value;
}.

Module OrderedObject.

(** [o[k]] on an object kept in enumeration order. *)
Fixpoint lookup {A : Type} (k : jsstring) (o : list (jsstring * A)) : option A :=
  match o with
  | [] => None
  | (k', x) :: rest => if bool_decide (k' = k) then Some x else lookup k rest
  end.

(** [Object.values(o)]. *)
Definition values {A : Type} (o : list (jsstring * A)) : list A := o.*2.

Definition keys {A : Type} (o : list (jsstring * A)) : list jsstring := o.*1.

End OrderedObject.

(** An absent object is [undefined]; an absent array likewise. *)
Definition objectValue (o : option object) : value :=
  from_option VObj VUndefined o.

Definition arrayValue (l : option (list object)) : value :=
  from_option (fun l => VArr (VObj <$> l)) VUndefined l.

Definition stringValue (s : option jsstring) : value :=
  from_option VStr VUndefined s.

(** ** The selectors *)

Definition getBlockType (state : State) (name : jsstring) : option BlockType :=
  OrderedObject.lookup name (blockTypes state).

Definition getNormalizedBlockType (state : State) (nameOrType : value) : value :=
  match nameOrType with
  | VStr name => objectValue (getBlockType state name)
  | _ => nameOrType
  end.


Definition getBlockVariations (host : Host) (state : State)
    (blockName : jsstring) (scope : option jsstring)
  : result (option (list BlockVariation)) :=
  let variations := blockVariations state !! blockName in
  if negb (Js.truthy (arrayValue variations))
     || negb (Js.truthy (stringValue scope))
  then Ok variations
  else
    match variations, scope with
    | Some array, Some tag =>
        kept ← Js.filter
          (fun variation =>
             Js.includesMethod host
               (Js.or (Js.own variation (js "scope"))
                      (VArr [VStr (js "block"); VStr (js "inserter")]))
               tag)
          array;
        Ok (Some kept)
    | _, _ => Ok variations
    end.

Definition getBlockTypes (host : Host) (state : State) : result (list BlockType) :=
  Js.map
    (fun blockType =>
       variations ← getBlockVariations host state
         (Js.toPropertyKey host (Js.own blockType (js "name"))) None;
       Ok (<[js "variations" := arrayValue variations]> blockType))
    (OrderedObject.values (blockTypes state)).

Definition getBlockDisplayInformation (host : Host) (state : State)
    (name : jsstring) (attributes : value) : result object :=
  let variations := blockVariations state !! name in
  let blockType := objectValue (getBlockType state name) in
  title ← Js.member blockType (js "title");
  icon ← Js.member blockType (js "icon");
  description ← Js.member blockType (js "description");
  let blockTypeInfo : object :=
    {[ js "title" := title; js "icon" := icon;
       js "description" := description ]} in
  if negb (Js.truthy (arrayValue variations))
     || negb (Js.truthy (Js.optionalMember blockType (js "variationMatcher")))
  then Ok blockTypeInfo
  else
    found ← Js.find
      (fun variation =>
         matcher ← Js.member blockType (js "variationMatcher");
         Js.callMethod host blockType matcher [attributes; VObj variation])
      (default [] variations);  (* an array at this point *)
    if negb (Js.truthy (objectValue found)) then Ok blockTypeInfo
    else
      let match_ := objectValue found in
      matchTitle ← Js.member match_ (js "title");
      matchIcon ← Js.member match_ (js "icon");
      matchDescription ← Js.member match_ (js "description");
      Ok {[ js "title" := Js.or matchTitle title;
            js "icon" := Js.or matchIcon icon;
            js "description" := Js.or matchDescription description ]}.

Definition getDefaultBlockVariation (host : Host) (state : State)
    (blockName : jsstring) (scope : option jsstring)
  : result (option BlockVariation) :=
  variations ← getBlockVariations host state blockName scope;
  (* [found || first( variations )]: a variation found is an object, hence
     truthy. *)
  Ok (match Lodash.findLast variations (Lodash.property (js "isDefault")) with
      | Some variation => Some variation
      | None => Lodash.first variations
      end).

Definition getCategories (state : State) : value := categories state.

Definition getCollections (state : State) : value := collections state.

Definition getDefaultBlockName (state : State) : value := defaultBlockName state.

Definition getFreeformFallbackBlockName (state : State) : value :=
  freeformFallbackBlockName state.

Definition getUnregisteredFallbackBlockName (state : State) : value :=
  unregisteredFallbackBlockName state.

Definition getGroupingBlockName (state : State) : value := groupingBlockName state.

Definition getChildBlockNames (state : State) (blockName : jsstring) : list value :=
  Lodash.map
    (Lodash.filter (OrderedObject.values (blockTypes state))
       (fun blockType => Lodash.includes (Js.own blockType (js "parent")) blockName))
    (fun blockType => Js.own blockType (js "name")).

Definition getBlockSupport (state : State) (nameOrType : value)
    (feature : jsstring) (defaultSupports : value) : value :=
  let blockType := getNormalizedBlockType state nameOrType in
  Lodash.get blockType (js "supports" :: JsString.split 46 feature) defaultSupports.

Definition hasBlockSupport (state : State) (nameOrType : value)
    (feature : jsstring) (defaultSupports : value) : bool :=
  Js.truthy (getBlockSupport state nameOrType feature defaultSupports).

Definition getNormalizedSearchTerm (host : Host) (term : value) : jsstring :=
  JsString.trim (toLowerCase host (Lodash.deburr host term)).

Definition isMatchingSearchTerm (host : Host) (state : State)
    (nameOrType : value) (searchTerm : jsstring) : result bool :=
  let blockType := getNormalizedBlockType state nameOrType in
  let normalizedSearchTerm := getNormalizedSearchTerm host (VStr searchTerm) in
  let isSearchMatch := fun candidate =>
    Lodash.includes (VStr (getNormalizedSearchTerm host candidate))
      normalizedSearchTerm in
  title ← Js.member blockType (js "title");
  if isSearchMatch title then Ok true
  else
    keywords ← Js.member blockType (js "keywords");
    if Lodash.some keywords isSearchMatch then Ok true
    else
      category ← Js.member blockType (js "category");
      Ok (isSearchMatch category).

Definition hasChildBlocks (state : State) (blockName : jsstring) : bool :=
  bool_decide (0 < length (getChildBlockNames state blockName)).

Definition hasChildBlocksWithInserterSupport (state : State) (blockName : jsstring)
  : bool :=
  Lodash.some (VArr (getChildBlockNames state blockName))
    (fun childBlockName =>
       hasBlockSupport state childBlockName (js "inserter") (VBool true)).

(** ** The data model of the state *)

(** A scope tag names a scope ([block], [inserter]): a non-empty string. *)
Definition scopeTag (tag : jsstring) : Prop := tag ≠ [].

(** A variation's [scope] is absent or an array of scope tags. *)
Definition scopeWellFormed (variation : BlockVariation) : Prop :=
  Js.own variation (js "scope") = VUndefined
  ∨ ∃ tags, Js.own variation (js "scope") = VArr tags.

Definition variationsWellFormed (state : State) : Prop :=
  ∀ name array, blockVariations state !! name = Some array →
    Forall scopeWellFormed array.

(** A BlockType's [parent] is absent or an array of block names. *)
Definition parentWellFormed (blockType : BlockType) : Prop :=
  Js.own blockType (js "parent") = VUndefined
  ∨ ∃ names, Js.own blockType (js "parent") = VArr names.

(** The type map holds every BlockType once, under its own name. *)
Definition registryWellFormed (state : State) : Prop :=
  NoDup (OrderedObject.keys (blockTypes state))
  ∧ Forall (fun entry => Js.own entry.2 (js "name") = VStr entry.1
                         ∧ parentWellFormed entry.2)
      (blockTypes state).

(** ** The specification's wording of what the selectors compute *)

(** The scope set of a variation: the declared one, or [{block, inserter}]. *)
Definition effectiveScope (variation : BlockVariation) : list value :=
  match variation !! js "scope" with
  | Some (VArr tags) => tags
  | _ => [VStr (js "block"); VStr (js "inserter")]
  end.

Definition inScope (tag : jsstring) (variation : BlockVariation) : bool :=
  existsb (Js.isStr tag) (effectiveScope variation).


(** A display field taken from the variation where the variation has the
    field, from the BlockType otherwise. *)
Definition fieldWherePresent (variation : BlockVariation) (blockType : BlockType)
    (k : jsstring) : value :=
  match variation !! k with
  | Some v => v
  | None => Js.own blockType k
  end.

Definition displayInformationWherePresent (variation : BlockVariation)
    (blockType : BlockType) : object :=
  {[ js "title" := fieldWherePresent variation blockType (js "title");
     js "icon" := fieldWherePresent variation blockType (js "icon");
     js "description" := fieldWherePresent variation blockType (js "description") ]}.

(** A display field taken from the variation where the variation's value is
    truthy, from the BlockType otherwise. *)
Definition fieldWhereTruthy (variation : BlockVariation) (blockType : BlockType)
    (k : jsstring) : value :=
  if Js.truthy (Js.own variation k) then Js.own variation k
  else Js.own blockType k.

Definition displayInformationWhereTruthy (variation : BlockVariation)
    (blockType : BlockType) : object :=
  {[ js "title" := fieldWhereTruthy variation blockType (js "title");
     js "icon" := fieldWhereTruthy variation blockType (js "icon");
     js "description" := fieldWhereTruthy variation blockType (js "description") ]}.

(** The matcher [f] of [blockType] accepts, or rejects, a variation. *)
Definition matcherAccepts (host : Host) (f : fn) (blockType : BlockType)
    (attributes : value) (variation : BlockVariation) : Prop :=
  ∃ r, call host f (VObj blockType) [attributes; VObj variation] = Ok r
       ∧ Js.truthy r = true.

Definition matcherRejects (host : Host) (f : fn) (blockType : BlockType)
    (attributes : value) (variation : BlockVariation) : Prop :=
  ∃ r, call host f (VObj blockType) [attributes; VObj variation] = Ok r
       ∧ Js.truthy r = false.

(** The nested-mapping traversal: the value reached by following the keys,
    nothing when a segment is missing on the way. *)
Fixpoint traverse (tree : value) (keys : list jsstring) : option value :=
  match keys with
  | [] => Some tree
  | k :: rest =>
      if Js.nullish tree then None
      else match Js.getProp tree k with
           | VUndefined => None
           | v => traverse v rest
           end
  end.

(** The parent list of a BlockType and the child relation. *)
Definition parentList (blockType : BlockType) : list value :=
  match blockType !! js "parent" with
  | Some (VArr names) => names
  | _ => []
  end.

Definition isChildOf (blockName : jsstring) (blockType : BlockType) : bool :=
  existsb (Js.isStr blockName) (parentList blockType).

(** What a BlockType declares for [supports.inserter], if anything. *)
Definition declaredInserter (blockType : BlockType) : option value :=
  match blockType !! js "supports" with
  | Some (VObj supports) =>
      match supports !! js "inserter" with
      | Some VUndefined => None
      | declared => declared
      end
  | _ => None
  end.

(** The inserter feature is supported unless declared otherwise. *)
Definition inserterSupported (blockType : BlockType) : bool :=
  match declaredInserter blockType with
  | Some declared => Js.truthy declared
  | None => true
  end.

(** Lower case within ASCII, where [toLowerCase] needs no Unicode table. *)
Definition asciiLower (c : N) : N :=
  if ((65 <=? c) && (c <=? 90))%N then (c + 32)%N else c.



Definition lowerCaseKeepsWhiteSpace (host : Host) : Prop :=
  ∀ s, Forall (fun c => JsString.isWhiteSpace c = true) s →
       Forall (fun c => JsString.isWhiteSpace c = true) (toLowerCase host s).

(** ** A host and states to run the selectors on *)

(** The matcher of the embed block: the variation named after the provider
    in the attributes. *)
Definition providerMatcher (args : list value) : result value :=
  match args with
  | [attributes; variation] =>
      provider ← Js.member attributes (js "providerNameSlug");
      name ← Js.member variation (js "name");
      match provider, name with
      | VStr a, VStr b => Ok (VBool (bool_decide (a = b)))
      | _, _ => Ok (VBool false)
      end
  | _ => Throw TypeError
  end.

Definition exampleHost : Host := {|
  toLowerCase := fun s => asciiLower <$> s;
  call := fun f this args =>
    match f with
    | 0 => providerMatcher args
    | _ => Throw TypeError
    end;
  ToString := fun _ => js "[object Object]";
  baseToString := fun _ => js "[object Object]";
|}.

Definition embedType : BlockType :=
  {[ js "name" := VStr (js "core/embed");
     js "title" := VStr (js "Embed");
     js "icon" := VStr (js "embed-generic");
     js "description" := VStr (js "Embed videos, images, tweets and audio.");
     js "category" := VStr (js "embed");
     js "supports" := VObj {[ js "align" := VBool true ]};
     js "variationMatcher" := VFun 0 ]}.

Definition twitterVariation : BlockVariation :=
  {[ js "name" := VStr (js "twitter");
     js "title" := VStr (js "Twitter");
     js "icon" := VStr (js "embed-twitter");
     js "description" := VStr (js "Embed a tweet.") ]}.

(** A variation that sets its description to the empty string. *)
Definition youtubeVariation : BlockVariation :=
  {[ js "name" := VStr (js "youtube");
     js "title" := VStr (js "YouTube");
     js "description" := VStr [] ]}.

(** A variation with only its title set, besides the name it is known by. *)
Definition vimeoVariation : BlockVariation :=
  {[ js "name" := VStr (js "vimeo");
     js "title" := VStr (js "Vimeo") ]}.

Definition columnsType : BlockType :=
  {[ js "name" := VStr (js "core/columns");
     js "title" := VStr (js "Columns");
     js "category" := VStr (js "design");
     js "keywords" := VArr [VStr (js "layout"); VStr (js "grid")];
     js "supports" :=
       VObj {[ js "align" := VArr [VStr (js "wide"); VStr (js "full")];
               js "color" := VObj {[ js "background" := VBool true ]};
               js "html" := VBool false ]} ]}.

Definition columnType : BlockType :=
  {[ js "name" := VStr (js "core/column");
     js "title" := VStr (js "Column");
     js "parent" := VArr [VStr (js "core/columns")];
     js "supports" := VObj {[ js "inserter" := VBool false;
                              js "html" := VBool false ]} ]}.

Definition mediaType : BlockType :=
  {[ js "name" := VStr (js "core/media");
     js "title" := VStr (js "media library");
     js "category" := VStr (js "widgets");
     js "keywords" := VArr [VStr (js "image"); VStr (js "video")] ]}.

Definition equalColumns : BlockVariation :=
  {[ js "name" := VStr (js "two-columns-equal");
     js "title" := VStr (js "50 / 50");
     js "isDefault" := VBool true;
     js "scope" := VArr [VStr (js "block")] ]}.

Definition thirdsColumns : BlockVariation :=
  {[ js "name" := VStr (js "two-columns-one-third-two-thirds");
     js "title" := VStr (js "30 / 70");
     js "isDefault" := VBool true ]}.

Definition threeColumns : BlockVariation :=
  {[ js "name" := VStr (js "three-columns-equal");
     js "title" := VStr (js "33 / 33 / 33");
     js "scope" := VArr [VStr (js "inserter")] ]}.

Definition exampleState : State := {|
  blockTypes :=
    [ (js "core/embed", embedType); (js "core/columns", columnsType);
      (js "core/column", columnType); (js "core/media", mediaType) ];
  blockStyles := ∅;
  blockVariations :=
    {[ js "core/embed" := [twitterVariation; youtubeVariation; vimeoVariation];
       js "core/columns" := [equalColumns; thirdsColumns; threeColumns] ]};
  defaultBlockName := VStr (js "core/paragraph");
  freeformFallbackBlockName := VUndefined;
  unregisteredFallbackBlockName := VUndefined;
  groupingBlockName := VUndefined;
  categories := VArr [];
  collections := VObj ∅;
|}.

(** A state in which [core/columns] is not registered, while a registered
    type names it as its parent and variations are stored for it. *)
Definition orphanState : State := {|
  blockTypes := [ (js "core/column", columnType) ];
  blockStyles := ∅;
  blockVariations := {[ js "core/columns" := [equalColumns] ]};
  defaultBlockName := VUndefined;
  freeformFallbackBlockName := VUndefined;
  unregisteredFallbackBlockName := VUndefined;
  groupingBlockName := VUndefined;
  categories := VArr [];
  collections := VObj ∅;
|}.


(** The attributes of an embed of the given provider. *)
Definition embedOf (provider : string) : value :=
  VObj {[ js "providerNameSlug" := VStr (js provider) ]}.

(** ** Tactics for the example states *)

(** Proves [Forall P l] for a list given by its elements, with [tac] on
    each element. *)
Ltac each_element tac :=
  repeat (apply Forall_cons_2; [tac|]); apply Forall_nil_2.

(** Absent, or declared as an array. *)
Ltac absent_or_array :=
  first [left; reflexivity | right; eexists; reflexivity].

(** ** More states to run the selectors on *)

(** A BlockType whose matcher throws when called. *)
Definition faultyType : BlockType :=
  {[ js "name" := VStr (js "core/faulty");
     js "title" := VStr (js "Faulty");
     js "variationMatcher" := VFun 1 ]}.

(** A BlockType whose [variationMatcher] is not a function. *)
Definition oddType : BlockType :=
  {[ js "name" := VStr (js "core/odd");
     js "title" := VStr (js "Odd");
     js "variationMatcher" := VStr (js "yes") ]}.

(** A BlockType with a name and nothing else. *)
Definition bareType : BlockType :=
  {[ js "name" := VStr (js "core/bare") ]}.

(** A variation whose [scope] is neither absent nor an array. *)
Definition malformedVariation : BlockVariation :=
  {[ js "name" := VStr (js "malformed");
     js "scope" := VBool true ]}.

Definition oddState : State := {|
  blockTypes :=
    [ (js "core/faulty", faultyType); (js "core/odd", oddType);
      (js "core/bare", bareType) ];
  blockStyles := ∅;
  blockVariations :=
    {[ js "core/faulty" := [twitterVariation];
       js "core/odd" := [twitterVariation];
       js "core/bare" := [equalColumns; malformedVariation] ]};
  defaultBlockName := VUndefined;
  freeformFallbackBlockName := VUndefined;
  unregisteredFallbackBlockName := VUndefined;
  groupingBlockName := VUndefined;
  categories := VArr [];
  collections := VObj ∅;
|}.

(** A value that has no properties of its own to descend into. *)
Definition leafValue (v : value) : Prop :=
  match v with
  | VBool _ | VNum _ | VFun _ => True
  | _ => False
  end.

(** The three fields of a display information. *)
Definition displayFields : list jsstring :=
  [js "title"; js "icon"; js "description"].


(** A list block and its item, which declares nothing about the inserter. *)
Definition listType : BlockType :=
  {[ js "name" := VStr (js "core/list");
     js "title" := VStr (js "List") ]}.

Definition listItemType : BlockType :=
  {[ js "name" := VStr (js "core/list-item");
     js "title" := VStr (js "List item");
     js "parent" := VArr [VStr (js "core/list")] ]}.

Definition familyState : State := {|
  blockTypes :=
    [ (js "core/list", listType); (js "core/list-item", listItemType) ];
  blockStyles := ∅;
  blockVariations := ∅;
  defaultBlockName := VUndefined;
  freeformFallbackBlockName := VUndefined;
  unregisteredFallbackBlockName := VUndefined;
  groupingBlockName := VUndefined;
  categories := VArr [];
  collections := VObj ∅;
|}.

(** The example state with other styles, categories and well-known names. *)
Definition restyledState : State := {|
  blockTypes := blockTypes exampleState;
  blockStyles := {[ js "core/columns" := VArr [] ]};
  blockVariations := blockVariations exampleState;
  defaultBlockName := VStr (js "core/columns");
  freeformFallbackBlockName := VStr (js "core/freeform");
  unregisteredFallbackBlockName := VStr (js "core/missing");
  groupingBlockName := VStr (js "core/group");
  categories := VArr [VObj {[ js "slug" := VStr (js "design") ]}];
  collections := VObj ∅;
|}.


(** * Properties *)

(** ** Strings *)

Module JsStringFacts.
Import JsString.

Lemma startsWith_prefix (s t : jsstring) :
  startsWith s t = true ↔ ∃ post, s = t ++ post.
Proof.
  revert s; induction t as [|d t IH]; intros s; simpl.
  - split; [intros _; by exists s | done].
  - destruct s as [|c s]; simpl.
    + split; [done | intros [post Hpost]; discriminate].
    + rewrite andb_true_iff, N.eqb_eq, IH. split.
      * intros [-> [post ->]]. by exists post.
      * intros [post [= -> ->]]. eauto.
Qed.

Lemma includes_substring (s t : jsstring) :
  includes s t = true ↔ substring_of t s.
Proof.
  unfold substring_of. induction s as [|c s IH].
  - simpl. rewrite orb_false_r, startsWith_prefix. split.
    + intros [post ->]. by exists [], post.
    + intros [pre [post Heq]]. destruct pre; [by exists post|discriminate].
  - change (includes (c :: s) t)
      with (startsWith (c :: s) t || includes s t).
    rewrite orb_true_iff, startsWith_prefix, IH. split.
    + intros [[post ->]|[pre [post ->]]].
      * by exists [], post.
      * by exists (c :: pre), post.
    + intros [pre [post Heq]]. destruct pre as [|c' pre].
      * left. by exists post.
      * right. injection Heq as -> ->. by exists pre, post.
Qed.

Lemma includes_nil (s : jsstring) : includes s [] = true.
Proof. apply includes_substring. by exists [], s. Qed.





End JsStringFacts.

(** ** Values and the error monad *)

Module JsFacts.
Import Js.

Lemma own_absent (o : object) (k : jsstring) :
  o !! k = None → own o k = VUndefined.
Proof. unfold own. by intros ->. Qed.

(** A callback that never throws makes [filter] the filter of lists. *)
Lemma filter_total {A : Type} (callback : A → result value) (keep : A → bool)
    (array : list A) :
  Forall (fun x => ∃ r, callback x = Ok r ∧ truthy r = keep x) array →
  filter callback array = Ok (List.filter keep array).
Proof.
  induction 1 as [|x rest (r & Hcall & Htruthy) _ IH]; simpl; [done|].
  rewrite Hcall. simpl. rewrite IH. simpl. by rewrite Htruthy.
Qed.

(** [find] returns the first element its callback accepts. *)
Lemma find_first {A : Type} (callback : A → result value)
    (before : list A) (x : A) (after : list A) :
  Forall (fun y => ∃ r, callback y = Ok r ∧ truthy r = false) before →
  (∃ r, callback x = Ok r ∧ truthy r = true) →
  find callback (before ++ x :: after) = Ok (Some x).
Proof.
  intros Hbefore (r & Hcall & Htruthy).
  induction Hbefore as [|y rest (r' & Hcall' & Hfalse) _ IH]; simpl.
  - rewrite Hcall. simpl. by rewrite Htruthy.
  - rewrite Hcall'. simpl. by rewrite Hfalse.
Qed.

Lemma find_none {A : Type} (callback : A → result value) (array : list A) :
  Forall (fun y => ∃ r, callback y = Ok r ∧ truthy r = false) array →
  find callback array = Ok None.
Proof.
  induction 1 as [|y rest (r' & Hcall' & Hfalse) _ IH]; simpl; [done|].
  rewrite Hcall'. simpl. by rewrite Hfalse.
Qed.

(** A callback that never throws makes [map] the map of lists. *)
Lemma map_total {A B : Type} (callback : A → result B) (f : A → B)
    (array : list A) :
  (∀ x, callback x = Ok (f x)) →
  map callback array = Ok (f <$> array).
Proof.
  intros Hcall. induction array as [|x rest IH]; simpl; [done|].
  rewrite Hcall. simpl. by rewrite IH.
Qed.

Lemma existsb_isStr (s : jsstring) (l : list value) :
  existsb (isStr s) l = true ↔ VStr s ∈ l.
Proof.
  rewrite existsb_exists. split.
  - intros (v & Hin & Hv). apply list_elem_of_In in Hin.
    destruct v; simpl in Hv; try done.
    apply bool_decide_eq_true in Hv. by subst.
  - intros Hin. exists (VStr s). split; [by apply list_elem_of_In|].
    simpl. by apply bool_decide_eq_true.
Qed.

End JsFacts.

Module LodashFacts.
Import Lodash.




End LodashFacts.

(** ** Variations *)

Section Variations.
Context (host : Host).

(** On a well-formed variation the scope test of the filter callback is
    membership in the effective scope set. *)
Lemma scope_callback (tag : jsstring) (variation : BlockVariation) :
  scopeWellFormed variation →
  Js.includesMethod host
    (Js.or (Js.own variation (js "scope"))
       (VArr [VStr (js "block"); VStr (js "inserter")])) tag
  = Ok (VBool (inScope tag variation)).
Proof.
  unfold inScope, effectiveScope, Js.own.
  intros [Hscope|[tags Hscope]]; unfold Js.own in Hscope.
  - destruct (variation !! js "scope") as [declared|]; simpl in *.
    + by subst declared.
    + done.
  - destruct (variation !! js "scope") as [declared|]; simpl in *.
    + by subst declared.
    + done.
Qed.

Lemma getBlockVariations_unscoped (state : State) (blockName : jsstring) :
  getBlockVariations host state blockName None
  = Ok (blockVariations state !! blockName).
Proof.
  unfold getBlockVariations. simpl. by rewrite orb_true_r.
Qed.


Lemma getBlockVariations_tag (state : State) (blockName tag : jsstring) :
  variationsWellFormed state →
  scopeTag tag →
  getBlockVariations host state blockName (Some tag)
  = Ok (List.filter (inScope tag) <$> blockVariations state !! blockName).
Proof.
  intros Hwf Htag. unfold getBlockVariations.
  destruct (blockVariations state !! blockName) as [array|] eqn:Hlookup;
    [|done].
  assert (Js.truthy (stringValue (Some tag)) = true) as ->.
  { simpl. by rewrite bool_decide_eq_false_2. }
  simpl.
  rewrite (JsFacts.filter_total _ (inScope tag)); [done|].
  eapply Forall_impl; [by eapply Hwf|].
  intros variation Hvariation. eexists. split.
  - by apply scope_callback.
  - done.
Qed.




End Variations.

(** ** Display information *)

Section DisplayInformation.
Context (host : Host).

(** Without variations stored for the block, the BlockType's own fields
    are returned. *)
Lemma getBlockDisplayInformation_no_variations (state : State)
    (name : jsstring) (attributes : value) (blockType : BlockType) :
  getBlockType state name = Some blockType →
  blockVariations state !! name = None →
  getBlockDisplayInformation host state name attributes
  = Ok {[ js "title" := Js.own blockType (js "title");
          js "icon" := Js.own blockType (js "icon");
          js "description" := Js.own blockType (js "description") ]}.
Proof.
  intros Htype Hvariations. unfold getBlockDisplayInformation.
  by rewrite Htype, Hvariations.
Qed.

(** An unregistered name makes the selector throw. *)
Lemma getBlockDisplayInformation_unregistered (state : State)
    (name : jsstring) (attributes : value) :
  getBlockType state name = None →
  getBlockDisplayInformation host state name attributes = Throw TypeError.
Proof.
  intros Htype. unfold getBlockDisplayInformation. by rewrite Htype.
Qed.

Lemma getBlockDisplayInformation_match (state : State) (name : jsstring)
    (attributes : value) (blockType : BlockType) (f : fn)
    (before : list BlockVariation) (match_ : BlockVariation)
    (after : list BlockVariation) :
  getBlockType state name = Some blockType →
  Js.own blockType (js "variationMatcher") = VFun f →
  blockVariations state !! name = Some (before ++ match_ :: after) →
  Forall (matcherRejects host f blockType attributes) before →
  matcherAccepts host f blockType attributes match_ →
  getBlockDisplayInformation host state name attributes
  = Ok (displayInformationWhereTruthy match_ blockType).
Proof.
  intros Htype Hmatcher Hvariations Hbefore Hmatch.
  unfold getBlockDisplayInformation. rewrite Htype, Hvariations.
  unfold Js.optionalMember. simpl. rewrite !Hmatcher. simpl.
  rewrite (JsFacts.find_first _ before match_ after).
  - done.
  - exact Hbefore.
  - exact Hmatch.
Qed.

(** C1, as the code has it.  For a registered block with a matcher and
    stored variations, the first variation in stored order that the
    matcher accepts decides the result: title, icon and description come
    from that variation where its value for the field is truthy, and from
    the BlockType otherwise.  A matched variation with only a non-empty
    title set yields its title with the BlockType's icon and description. *)
Theorem getBlockDisplayInformation_first_match (state : State)
    (name : jsstring) (attributes : value) (blockType : BlockType) (f : fn)
    (before : list BlockVariation) (match_ : BlockVariation)
    (after : list BlockVariation) :
  getBlockType state name = Some blockType →
  Js.own blockType (js "variationMatcher") = VFun f →
  blockVariations state !! name = Some (before ++ match_ :: after) →
  Forall (matcherRejects host f blockType attributes) before →
  matcherAccepts host f blockType attributes match_ →
  getBlockDisplayInformation host state name attributes
  = Ok (displayInformationWhereTruthy match_ blockType)
  ∧ (Js.truthy (Js.own match_ (js "title")) = true →
     match_ !! js "icon" = None →
     match_ !! js "description" = None →
     getBlockDisplayInformation host state name attributes
     = Ok {[ js "title" := Js.own match_ (js "title");
             js "icon" := Js.own blockType (js "icon");
             js "description" := Js.own blockType (js "description") ]}).
Proof.
  intros Htype Hmatcher Hvariations Hbefore Hmatch.
  pose proof (getBlockDisplayInformation_match state name attributes
                blockType f before match_ after
                Htype Hmatcher Hvariations Hbefore Hmatch) as Hresult.
  split; [done|]. intros Htitle Hicon Hdescription. rewrite Hresult.
  unfold displayInformationWhereTruthy, fieldWhereTruthy.
  rewrite Htitle.
  by rewrite (JsFacts.own_absent _ _ Hicon),
    (JsFacts.own_absent _ _ Hdescription).
Qed.

(** When the matcher accepts no variation, the BlockType's own fields
    are returned. *)
Lemma getBlockDisplayInformation_no_match (state : State) (name : jsstring)
    (attributes : value) (blockType : BlockType) (f : fn)
    (array : list BlockVariation) :
  getBlockType state name = Some blockType →
  Js.own blockType (js "variationMatcher") = VFun f →
  blockVariations state !! name = Some array →
  Forall (matcherRejects host f blockType attributes) array →
  getBlockDisplayInformation host state name attributes
  = Ok {[ js "title" := Js.own blockType (js "title");
          js "icon" := Js.own blockType (js "icon");
          js "description" := Js.own blockType (js "description") ]}.
Proof.
  intros Htype Hmatcher Hvariations Hall.
  unfold getBlockDisplayInformation. rewrite Htype, Hvariations.
  unfold Js.optionalMember. simpl. rewrite !Hmatcher. simpl.
  rewrite JsFacts.find_none; [done|]. exact Hall.
Qed.

End DisplayInformation.

(** ** Support introspection *)

Section Support.

(** [baseGet] walks as the traversal does: it ends in the value reached,
    which is never [undefined], or in [undefined] when a segment is
    missing. *)
Lemma baseGet_traverse (path : list jsstring) :
  path ≠ [] →
  ∀ object,
    Lodash.baseGet object path = default VUndefined (traverse object path)
    ∧ traverse object path ≠ Some VUndefined.
Proof.
  induction path as [|key rest IH]; [done|]. intros _ object. simpl.
  destruct (Js.nullish object); [done|].
  destruct rest as [|key' rest].
  - simpl. by destruct (Js.getProp object key).
  - destruct (IH ltac:(done) (Js.getProp object key)) as [Hget Hdef].
    destruct (Js.getProp object key) eqn:Hprop; try done.
Qed.

Lemma get_traverse (object : value) (path : list jsstring)
    (defaultValue : value) :
  path ≠ [] →
  Lodash.get object path defaultValue
  = default defaultValue (traverse object path).
Proof.
  intros Hpath. unfold Lodash.get.
  destruct path as [|key rest]; [done|].
  destruct (Js.nullish object) eqn:Hnull.
  - simpl. by rewrite Hnull.
  - destruct (baseGet_traverse (key :: rest) Hpath object) as [-> Hdef].
    destruct (traverse object (key :: rest)) as [reached|]; [|done].
    simpl. by destruct reached.
Qed.



Lemma getProp_inserter (v : value) :
  Js.getProp v (js "inserter")
  = match v with
    | VObj props => Js.own props (js "inserter")
    | _ => VUndefined
    end.
Proof.
  by destruct v.
Qed.

(** The inserter feature of a BlockType, with its default. *)
Lemma hasBlockSupport_inserter_type (state : State) (blockType : BlockType) :
  Js.truthy
    (Lodash.get (VObj blockType)
       (js "supports" :: JsString.split 46 (js "inserter")) (VBool true))
  = inserterSupported blockType.
Proof.
  replace (JsString.split 46 (js "inserter")) with [js "inserter"]
    by (by vm_compute).
  rewrite get_traverse by done.
  unfold inserterSupported, declaredInserter.
  cbn [traverse Js.nullish Js.getProp]. unfold Js.own.
  destruct (blockType !! js "supports") as [supports|]; [|done].
  destruct supports as [| |b|n|s|elems|props|g]; try done.
  cbn. destruct (props !! js "inserter") as [declared|]; [|done].
  by destruct declared.
Qed.

Lemma hasBlockSupport_inserter (state : State) (name : jsstring)
    (blockType : BlockType) :
  getBlockType state name = Some blockType →
  hasBlockSupport state (VStr name) (js "inserter") (VBool true)
  = inserterSupported blockType.
Proof.
  intros Htype. unfold hasBlockSupport, getBlockSupport.
  unfold getNormalizedBlockType. rewrite Htype.
  by apply hasBlockSupport_inserter_type.
Qed.

End Support.

(** ** Search matching *)

Section Search.
Context (host : Host).

Lemma trimStart_whiteSpace (s : jsstring) :
  Forall (fun c => JsString.isWhiteSpace c = true) s →
  JsString.trimStart s = [].
Proof. induction 1 as [|c s Hc _ IH]; simpl; [done|]. by rewrite Hc. Qed.

Lemma trim_whiteSpace (s : jsstring) :
  Forall (fun c => JsString.isWhiteSpace c = true) s →
  JsString.trim s = [].
Proof.
  intros Hs. unfold JsString.trim. by rewrite trimStart_whiteSpace.
Qed.

Lemma whiteSpace_not_letter (c : N) :
  JsString.isWhiteSpace c = true →
  Lodash.reLatin c = false ∧ Lodash.reComboMark c = false.
Proof.
  unfold JsString.isWhiteSpace, Lodash.reLatin, Lodash.reComboMark.
  rewrite !orb_true_iff, !andb_true_iff, !N.leb_le, !N.eqb_eq.
  intros Hc. split; apply not_true_iff_false;
    rewrite !orb_true_iff, !andb_true_iff, !N.leb_le; lia.
Qed.

Lemma comboMark_not_letter (c : N) :
  Lodash.reComboMark c = true → Lodash.reLatin c = false.
Proof.
  unfold Lodash.reLatin, Lodash.reComboMark.
  rewrite !orb_true_iff, !andb_true_iff, !N.leb_le.
  intros Hc. apply not_true_iff_false.
  rewrite !orb_true_iff, !andb_true_iff, !N.leb_le. lia.
Qed.

(** [deburr] leaves white space alone and removes combining marks. *)
Lemma deburr_whiteSpace_marks (s : jsstring) :
  Forall (fun c => JsString.isWhiteSpace c = true
                   ∨ Lodash.reComboMark c = true) s →
  Forall (fun c => JsString.isWhiteSpace c = true)
    (Lodash.deburr host (VStr s)).
Proof.
  unfold Lodash.deburr. simpl.
  induction 1 as [|c s Hc _ IH]; simpl; [constructor|].
  destruct Hc as [Hspace|Hmark].
  - destruct (whiteSpace_not_letter c Hspace) as [-> Hnot]. simpl.
    rewrite Hnot. simpl. by constructor.
  - rewrite (comboMark_not_letter c Hmark). simpl. by rewrite Hmark.
Qed.

(** A term of white space and combining marks normalizes to the empty
    string. *)
Lemma getNormalizedSearchTerm_blank (searchTerm : jsstring) :
  lowerCaseKeepsWhiteSpace host →
  Forall (fun c => JsString.isWhiteSpace c = true
                   ∨ Lodash.reComboMark c = true) searchTerm →
  getNormalizedSearchTerm host (VStr searchTerm) = [].
Proof.
  intros Hlower Hterm. unfold getNormalizedSearchTerm.
  apply trim_whiteSpace, Hlower. by apply deburr_whiteSpace_marks.
Qed.

(** On a BlockType at hand the selector is the disjunction of the three
    matches. *)
Lemma isMatchingSearchTerm_resolved (state : State) (nameOrType : value)
    (blockType : BlockType) (searchTerm : jsstring) :
  getNormalizedBlockType state nameOrType = VObj blockType →
  isMatchingSearchTerm host state nameOrType searchTerm
  = Ok (let isSearchMatch := fun candidate =>
          JsString.includes (getNormalizedSearchTerm host candidate)
            (getNormalizedSearchTerm host (VStr searchTerm)) in
        isSearchMatch (Js.own blockType (js "title"))
        || existsb isSearchMatch
             (Lodash.elements (Js.own blockType (js "keywords")))
        || isSearchMatch (Js.own blockType (js "category"))).
Proof.
  intros Hresolved. unfold isMatchingSearchTerm. rewrite Hresolved.
  cbn. unfold Lodash.some.
  destruct (JsString.includes _ _); [done|]. cbn.
  by destruct (existsb _ _).
Qed.






(** C10. For a name or type that resolves to a BlockType whose title is
    a string, [isMatchingSearchTerm] returns true for every search term
    that normalizes to the empty string; such are the empty term and the
    terms of white space and combining diacritical marks only. *)
Theorem isMatchingSearchTerm_blank_term (state : State) (nameOrType : value)
    (blockType : BlockType) (title : jsstring) (searchTerm : jsstring) :
  getNormalizedBlockType state nameOrType = VObj blockType →
  Js.own blockType (js "title") = VStr title →
  (getNormalizedSearchTerm host (VStr searchTerm) = [] →
   isMatchingSearchTerm host state nameOrType searchTerm = Ok true)
  ∧ (lowerCaseKeepsWhiteSpace host →
     Forall (fun c => JsString.isWhiteSpace c = true
                      ∨ Lodash.reComboMark c = true) searchTerm →
     isMatchingSearchTerm host state nameOrType searchTerm = Ok true).
Proof.
  intros Hresolved Htitle.
  assert (getNormalizedSearchTerm host (VStr searchTerm) = [] →
          isMatchingSearchTerm host state nameOrType searchTerm = Ok true)
    as Hblank.
  { intros Hterm.
    rewrite (isMatchingSearchTerm_resolved _ _ _ _ Hresolved). cbv zeta.
    by rewrite Hterm, JsStringFacts.includes_nil. }
  split; [done|]. intros Hlower Hterm.
  by apply Hblank, getNormalizedSearchTerm_blank.
Qed.

End Search.

(** ** The type map *)

Module OrderedObjectFacts.
Import OrderedObject.

Lemma lookup_Some_elem {A : Type} (k : jsstring) (o : list (jsstring * A))
    (x : A) :
  lookup k o = Some x → (k, x) ∈ o.
Proof.
  induction o as [|[k' y] rest IH]; simpl; [done|].
  case_bool_decide as Hk.
  - intros [= ->]. subst. by left.
  - intros Hrest. right. by apply IH.
Qed.


(** In an object without duplicate keys every entry is found under its
    key. *)
Lemma lookup_elem {A : Type} (k : jsstring) (o : list (jsstring * A)) (x : A) :
  NoDup (keys o) → (k, x) ∈ o → lookup k o = Some x.
Proof.
  unfold keys. induction o as [|[k' y] rest IH]; simpl.
  - by intros _ ?%elem_of_nil.
  - intros [Hfresh Hrest]%NoDup_cons [Hhead|Htail]%elem_of_cons.
    + injection Hhead as -> ->. by rewrite bool_decide_eq_true_2.
    + case_bool_decide as Hk; [|by apply IH].
      subst k'. exfalso. apply Hfresh.
      apply list_elem_of_fmap. by exists (k, x).
Qed.

End OrderedObjectFacts.

Section Children.

(** On a BlockType that follows the data model, the test of the filter
    callback is membership in the parent list. *)
Lemma includes_parent (blockName : jsstring) (blockType : BlockType) :
  parentWellFormed blockType →
  Lodash.includes (Js.own blockType (js "parent")) blockName
  = isChildOf blockName blockType.
Proof.
  unfold isChildOf, parentList, Js.own.
  intros [Hparent|[names Hparent]]; unfold Js.own in Hparent;
    destruct (blockType !! js "parent") as [declared|];
    simpl in *; by subst.
Qed.

Lemma getChildBlockNames_entries (entries : list (jsstring * BlockType))
    (blockName : jsstring) :
  Forall (fun entry => Js.own entry.2 (js "name") = VStr entry.1
                       ∧ parentWellFormed entry.2) entries →
  Lodash.map
    (Lodash.filter (OrderedObject.values entries)
       (fun blockType =>
          Lodash.includes (Js.own blockType (js "parent")) blockName))
    (fun blockType => Js.own blockType (js "name"))
  = VStr <$>
      (List.filter (fun entry => isChildOf blockName entry.2) entries).*1.
Proof.
  unfold Lodash.map, Lodash.filter, OrderedObject.values.
  induction 1 as [|[name blockType] rest [Hname Hparent] _ IH]; [done|].
  cbn [fmap list_fmap List.filter snd fst] in *.
  rewrite (includes_parent _ _ Hparent).
  destruct (isChildOf blockName blockType);
    cbn [List.map fmap list_fmap snd fst]; [|done].
  by rewrite Hname, IH.
Qed.

Lemma getChildBlockNames_filter (state : State) (blockName : jsstring) :
  registryWellFormed state →
  getChildBlockNames state blockName
  = VStr <$>
      (List.filter (fun entry => isChildOf blockName entry.2)
         (blockTypes state)).*1.
Proof.
  intros [_ Hentries]. by apply getChildBlockNames_entries.
Qed.

(** The result depends on the state through the dependant the memoised
    selector declares. *)
Lemma getChildBlockNames_dependants (state state' : State)
    (blockName : jsstring) :
  blockTypes state = blockTypes state' →
  getChildBlockNames state blockName = getChildBlockNames state' blockName.
Proof. unfold getChildBlockNames. by intros ->. Qed.

Lemma isChildOf_parentList (blockName : jsstring) (blockType : BlockType) :
  isChildOf blockName blockType = true ↔ VStr blockName ∈ parentList blockType.
Proof. apply JsFacts.existsb_isStr. Qed.

Lemma elem_of_children (state : State) (blockName name : jsstring) :
  registryWellFormed state →
  name ∈ (List.filter (fun entry => isChildOf blockName entry.2)
            (blockTypes state)).*1
  ↔ ∃ blockType, getBlockType state name = Some blockType
      ∧ isChildOf blockName blockType = true.
Proof.
  intros [Hnodup _]. rewrite list_elem_of_fmap. split.
  - intros ([name' blockType] & -> & Hin%list_elem_of_In%filter_In).
    destruct Hin as [Hin%list_elem_of_In Hchild]. simpl in *.
    exists blockType. split; [|done].
    by apply OrderedObjectFacts.lookup_elem.
  - intros (blockType & Hlookup & Hchild).
    exists (name, blockType). split; [done|].
    apply list_elem_of_In, filter_In. split; [|done].
    by apply list_elem_of_In, OrderedObjectFacts.lookup_Some_elem.
Qed.

(** C6. On a type map that holds every BlockType once under its own
    name, [getChildBlockNames] returns the names of the registered
    BlockTypes whose parent list contains the block name, in the order in
    which the type map enumerates them, and no other name. *)
Theorem getChildBlockNames_children (state : State) (blockName : jsstring) :
  registryWellFormed state →
  getChildBlockNames state blockName
  = VStr <$>
      (List.filter (fun entry => isChildOf blockName entry.2)
         (blockTypes state)).*1
  ∧ ∀ name, VStr name ∈ getChildBlockNames state blockName ↔
      ∃ blockType, getBlockType state name = Some blockType
        ∧ VStr blockName ∈ parentList blockType.
Proof.
  intros Hwf. split; [by apply getChildBlockNames_filter|].
  intros name. rewrite getChildBlockNames_filter by done.
  rewrite list_elem_of_fmap. split.
  - intros (name' & [= <-] & Hin).
    apply elem_of_children in Hin as (blockType & ? & ?); [|done].
    exists blockType. by rewrite <-isChildOf_parentList.
  - intros (blockType & Hlookup & Hparent). exists name. split; [done|].
    apply elem_of_children; [done|]. exists blockType.
    by rewrite isChildOf_parentList.
Qed.

Lemma hasChildBlocksWithInserterSupport_exists (state : State)
    (blockName : jsstring) :
  registryWellFormed state →
  hasChildBlocksWithInserterSupport state blockName = true ↔
    ∃ name blockType, getBlockType state name = Some blockType
      ∧ isChildOf blockName blockType = true
      ∧ inserterSupported blockType = true.
Proof.
  intros Hwf. unfold hasChildBlocksWithInserterSupport, Lodash.some.
  cbn [Lodash.elements]. rewrite getChildBlockNames_filter by done.
  rewrite existsb_exists. split.
  - intros (child & Hin%list_elem_of_In%list_elem_of_fmap & Hsupport).
    destruct Hin as (name & -> & Hin).
    apply elem_of_children in Hin as (blockType & Hlookup & Hchild); [|done].
    exists name, blockType. split; [done|]. split; [done|].
    by rewrite <-(hasBlockSupport_inserter state name).
  - intros (name & blockType & Hlookup & Hchild & Hsupport).
    exists (VStr name). split.
    + apply list_elem_of_In, list_elem_of_fmap. exists name. split; [done|].
      apply elem_of_children; [done|]. by exists blockType.
    + by rewrite (hasBlockSupport_inserter state name blockType).
Qed.

(** C9. On a type map that holds every BlockType once under its own
    name, [hasChildBlocksWithInserterSupport] is true exactly when some
    registered BlockType whose parent list contains the block name
    supports the inserter, a type that declares nothing for
    [supports.inserter] counting as supporting it.  It is false when every
    child declares [supports.inserter] to be false. *)
Theorem hasChildBlocksWithInserterSupport_iff (state : State)
    (blockName : jsstring) :
  registryWellFormed state →
  (hasChildBlocksWithInserterSupport state blockName = true ↔
     ∃ name blockType, getBlockType state name = Some blockType
       ∧ VStr blockName ∈ parentList blockType
       ∧ match declaredInserter blockType with
         | Some declared => Js.truthy declared = true
         | None => True
         end)
  ∧ ((∀ name blockType, getBlockType state name = Some blockType →
        VStr blockName ∈ parentList blockType →
        declaredInserter blockType = Some (VBool false)) →
     hasChildBlocksWithInserterSupport state blockName = false).
Proof.
  intros Hwf.
  pose proof (hasChildBlocksWithInserterSupport_exists state blockName Hwf)
    as Hiff.
  split.
  - rewrite Hiff. split.
    + intros (name & blockType & Hlookup & Hchild & Hsupport).
      exists name, blockType. split; [done|].
      split; [by apply isChildOf_parentList|].
      unfold inserterSupported in Hsupport.
      by destruct (declaredInserter blockType).
    + intros (name & blockType & Hlookup & Hchild & Hsupport).
      exists name, blockType. split; [done|].
      split; [by apply isChildOf_parentList|].
      unfold inserterSupported.
      by destruct (declaredInserter blockType).
  - intros Hall. apply not_true_iff_false. rewrite Hiff.
    intros (name & blockType & Hlookup & Hchild & Hsupport).
    apply isChildOf_parentList in Hchild.
    unfold inserterSupported in Hsupport.
    by rewrite (Hall name blockType Hlookup Hchild) in Hsupport.
Qed.

End Children.

(** ** All block types *)

Section BlockTypes.
Context (host : Host).

Lemma getBlockTypes_insert (state : State) :
  getBlockTypes host state
  = Ok ((fun blockType : BlockType =>
           <[js "variations" :=
               arrayValue
                 (blockVariations state
                  !! Js.toPropertyKey host (Js.own blockType (js "name")))]>
             blockType)
        <$> OrderedObject.values (blockTypes state)).
Proof.
  unfold getBlockTypes. apply JsFacts.map_total. intros blockType.
  by rewrite getBlockVariations_unscoped.
Qed.

(** The result depends on the state through the two dependants the
    memoised selector declares. *)
Lemma getBlockTypes_dependants (state state' : State) :
  blockTypes state = blockTypes state' →
  blockVariations state = blockVariations state' →
  getBlockTypes host state = getBlockTypes host state'.
Proof.
  intros Htypes Hvariations. rewrite !getBlockTypes_insert.
  by rewrite Htypes, Hvariations.
Qed.

(** C8. [getBlockTypes] returns one entry per registered BlockType, in
    the type map's order.  The entry of a BlockType has, as its
    [variations], what [getBlockVariations] returns for the BlockType's
    name without a scope, and in every other property it is the
    BlockType. *)
Theorem getBlockTypes_annotated (state : State) :
  ∃ entries,
    getBlockTypes host state = Ok entries
    ∧ length entries = length (blockTypes state)
    ∧ ∀ i key blockType,
        blockTypes state !! i = Some (key, blockType) →
        ∃ entry variations,
          entries !! i = Some entry
          ∧ getBlockVariations host state
              (Js.toPropertyKey host (Js.own blockType (js "name"))) None
            = Ok variations
          ∧ (∀ name, Js.own blockType (js "name") = VStr name →
               getBlockVariations host state name None = Ok variations)
          ∧ entry !! js "variations" = Some (arrayValue variations)
          ∧ ∀ k, k ≠ js "variations" → entry !! k = blockType !! k.
Proof.
  rewrite getBlockTypes_insert. eexists. split; [done|]. split.
  - unfold OrderedObject.values. by rewrite !length_fmap.
  - intros i key blockType Hentry. unfold OrderedObject.values.
    rewrite !list_lookup_fmap, Hentry. simpl.
    eexists _, _. split; [done|]. split.
    { apply getBlockVariations_unscoped. }
    split.
    { intros name ->. by rewrite getBlockVariations_unscoped. }
    split.
    + by rewrite lookup_insert_eq.
    + intros k Hk. by rewrite lookup_insert_ne.
Qed.

End BlockTypes.

(** ** Names that are not registered *)

Section Unregistered.
Context (host : Host).





End Unregistered.

(** ** The selectors at work on the example states *)

Lemma exampleState_variations : variationsWellFormed exampleState.
Proof.
  intros name array Hlookup. unfold exampleState in Hlookup. simpl in Hlookup.
  apply lookup_insert_Some in Hlookup as [[_ <-]|[_ Hlookup]].
  - each_element absent_or_array.
  - apply lookup_singleton_Some in Hlookup as [_ <-].
    each_element absent_or_array.
Qed.


Lemma exampleState_registry : registryWellFormed exampleState.
Proof.
  split.
  - apply (bool_decide_unpack _). vm_compute. exact I.
  - each_element ltac:(split; [reflexivity | absent_or_array]).
Qed.

(** The selection among [A (default), B (default), C]. *)
Example getDefaultBlockVariation_last_default :
  getDefaultBlockVariation exampleHost exampleState (js "core/columns") None
  = Ok (Some thirdsColumns).
Proof. reflexivity. Qed.

Example getDefaultBlockVariation_first :
  getDefaultBlockVariation exampleHost exampleState (js "core/embed") None
  = Ok (Some twitterVariation).
Proof. reflexivity. Qed.

Example getDefaultBlockVariation_absent :
  getDefaultBlockVariation exampleHost exampleState (js "core/media") None
  = Ok None.
Proof. reflexivity. Qed.

Example getBlockSupport_nested :
  getBlockSupport exampleState (VStr (js "core/columns"))
    (js "color.background") (VBool false) = VBool true
  ∧ getBlockSupport exampleState (VStr (js "core/columns"))
      (js "color.gradients") (VBool false) = VBool false
  ∧ getBlockSupport exampleState (VStr (js "core/image"))
      (js "color.background") (VBool false) = VBool false.
Proof. repeat split; reflexivity. Qed.

Example getBlockType_identity :
  getBlockType exampleState (js "core/column") = Some columnType.
Proof. reflexivity. Qed.

Lemma getBlockDisplayInformation_first_match_witness :
  getBlockType exampleState (js "core/embed") = Some embedType
  ∧ Js.own embedType (js "variationMatcher") = VFun 0
  ∧ blockVariations exampleState !! js "core/embed"
    = Some ([twitterVariation; youtubeVariation] ++ vimeoVariation :: [])
  ∧ getBlockDisplayInformation exampleHost exampleState (js "core/embed")
      (embedOf "vimeo")
    = Ok {[ js "title" := VStr (js "Vimeo");
            js "icon" := VStr (js "embed-generic");
            js "description" :=
              VStr (js "Embed videos, images, tweets and audio.") ]}.
Proof.
  assert (getBlockType exampleState (js "core/embed") = Some embedType)
    as Htype by reflexivity.
  assert (Js.own embedType (js "variationMatcher") = VFun 0)
    as Hmatcher by reflexivity.
  assert (blockVariations exampleState !! js "core/embed"
          = Some ([twitterVariation; youtubeVariation] ++ vimeoVariation :: []))
    as Hvariations by reflexivity.
  split; [done|]. split; [done|]. split; [done|].
  destruct (getBlockDisplayInformation_first_match exampleHost exampleState
              (js "core/embed") (embedOf "vimeo") embedType 0
              [twitterVariation; youtubeVariation] vimeoVariation []
              Htype Hmatcher Hvariations) as [_ Honly].
  - each_element ltac:(eexists; split; reflexivity).
  - eexists; split; reflexivity.
  - rewrite Honly; reflexivity.
Defined.

(** C1 as stated fails on a matched variation whose description is
    present and empty: the description returned is the BlockType's. *)
Lemma getBlockDisplayInformation_where_present_counterexample :
  getBlockType exampleState (js "core/embed") = Some embedType
  ∧ Js.own embedType (js "variationMatcher") = VFun 0
  ∧ blockVariations exampleState !! js "core/embed"
    = Some ([twitterVariation] ++ youtubeVariation :: [vimeoVariation])
  ∧ Forall (matcherRejects exampleHost 0 embedType (embedOf "youtube"))
      [twitterVariation]
  ∧ matcherAccepts exampleHost 0 embedType (embedOf "youtube") youtubeVariation
  ∧ youtubeVariation !! js "description" = Some (VStr [])
  ∧ getBlockDisplayInformation exampleHost exampleState (js "core/embed")
      (embedOf "youtube")
    = Ok {[ js "title" := VStr (js "YouTube");
            js "icon" := VStr (js "embed-generic");
            js "description" :=
              VStr (js "Embed videos, images, tweets and audio.") ]}
  ∧ getBlockDisplayInformation exampleHost exampleState (js "core/embed")
      (embedOf "youtube")
    ≠ Ok (displayInformationWherePresent youtubeVariation embedType).
Proof.
  split; [reflexivity|]. split; [reflexivity|]. split; [reflexivity|].
  split; [each_element ltac:(eexists; split; reflexivity)|].
  split; [eexists; split; reflexivity|].
  split; [reflexivity|]. split; [reflexivity|].
  intros Heq.
  apply (f_equal (fun r => match r with
                           | Ok info => info !! js "description"
                           | Throw _ => None
                           end)) in Heq.
  vm_compute in Heq. discriminate Heq.
Qed.




Lemma exampleHost_lowerCaseKeepsWhiteSpace : lowerCaseKeepsWhiteSpace exampleHost.
Proof.
  intros s Hs. simpl. apply Forall_fmap. eapply Forall_impl; [exact Hs|].
  intros c Hc. simpl. unfold asciiLower.
  destruct ((65 <=? c)%N && (c <=? 90)%N) eqn:Hletter; [|done].
  exfalso. revert Hc. apply andb_true_iff in Hletter as [Hlow Hhigh].
  apply N.leb_le in Hlow, Hhigh. apply not_true_iff_false.
  unfold JsString.isWhiteSpace. apply not_true_iff_false.
  rewrite !orb_true_iff, !andb_true_iff, !N.leb_le, !N.eqb_eq. lia.
Qed.


(** A term of a space, a combining acute accent and a tab. *)
Lemma isMatchingSearchTerm_blank_term_witness :
  getNormalizedBlockType exampleState (VStr (js "core/media")) = VObj mediaType
  ∧ Js.own mediaType (js "title") = VStr (js "media library")
  ∧ isMatchingSearchTerm exampleHost exampleState (VStr (js "core/media"))
      [32; 0x301; 9]%N
    = Ok true
  ∧ isMatchingSearchTerm exampleHost exampleState (VStr (js "core/media")) []
    = Ok true.
Proof.
  assert (getNormalizedBlockType exampleState (VStr (js "core/media"))
          = VObj mediaType) as Hresolved by reflexivity.
  assert (Js.own mediaType (js "title") = VStr (js "media library"))
    as Htitle by reflexivity.
  split; [exact Hresolved|]. split; [exact Htitle|]. split.
  - destruct (isMatchingSearchTerm_blank_term exampleHost exampleState
                (VStr (js "core/media")) mediaType (js "media library")
                [32; 0x301; 9]%N Hresolved Htitle) as [_ Hblank].
    apply Hblank; [exact exampleHost_lowerCaseKeepsWhiteSpace|].
    each_element ltac:(first [left; reflexivity | right; reflexivity]).
  - destruct (isMatchingSearchTerm_blank_term exampleHost exampleState
                (VStr (js "core/media")) mediaType (js "media library")
                [] Hresolved Htitle) as [Hempty _].
    apply Hempty. reflexivity.
Defined.

Lemma getChildBlockNames_children_witness :
  registryWellFormed exampleState
  ∧ getChildBlockNames exampleState (js "core/columns")
    = [VStr (js "core/column")].
Proof.
  split; [exact exampleState_registry|].
  rewrite (proj1 (getChildBlockNames_children exampleState (js "core/columns")
                    exampleState_registry)).
  reflexivity.
Defined.

Lemma exampleState_children (name : jsstring) (blockType : BlockType) :
  getBlockType exampleState name = Some blockType →
  VStr (js "core/columns") ∈ parentList blockType →
  blockType = columnType.
Proof.
  intros Hlookup%OrderedObjectFacts.lookup_Some_elem Hparent.
  unfold exampleState in Hlookup. simpl in Hlookup.
  repeat (apply elem_of_cons in Hlookup as [Hlookup|Hlookup];
          [injection Hlookup as -> ->|]);
    [| |done| |by apply elem_of_nil in Hlookup];
    vm_compute in Hparent; by apply elem_of_nil in Hparent.
Qed.

Lemma hasChildBlocksWithInserterSupport_iff_witness :
  registryWellFormed exampleState
  ∧ hasChildBlocks exampleState (js "core/columns") = true
  ∧ hasChildBlocksWithInserterSupport exampleState (js "core/columns") = false.
Proof.
  split; [exact exampleState_registry|]. split; [reflexivity|].
  apply (proj2 (hasChildBlocksWithInserterSupport_iff exampleState
                  (js "core/columns") exampleState_registry)).
  intros name blockType Hlookup Hparent.
  rewrite (exampleState_children name blockType Hlookup Hparent).
  reflexivity.
Defined.



(** * Further properties of the selectors *)

(** ** The type map and name resolution *)

Section Resolution.
Context (host : Host).


(** X2. A name that is registered and the BlockType registered under
    it are interchangeable as the name-or-type argument; a BlockType
    passed as an object is used as it is, so the answer for it does not
    depend on the state. *)
Theorem nameOrType_resolution (state state' : State) (name : jsstring)
    (blockType : BlockType) (feature : jsstring) (defaultSupports : value)
    (searchTerm : jsstring) :
  getBlockType state name = Some blockType →
  getBlockSupport state (VStr name) feature defaultSupports
  = getBlockSupport state' (VObj blockType) feature defaultSupports
  ∧ hasBlockSupport state (VStr name) feature defaultSupports
    = hasBlockSupport state' (VObj blockType) feature defaultSupports
  ∧ isMatchingSearchTerm host state (VStr name) searchTerm
    = isMatchingSearchTerm host state' (VObj blockType) searchTerm.
Proof.
  intros Hlookup.
  unfold hasBlockSupport, getBlockSupport, isMatchingSearchTerm.
  unfold getNormalizedBlockType. by rewrite Hlookup.
Qed.

End Resolution.

(** ** Display information: errors, shape and fallback *)

Module DisplayFacts.

Lemma find_throws {A : Type} (callback : A → result value)
    (before : list A) (x : A) (after : list A) (e : error) :
  Forall (fun y => ∃ r, callback y = Ok r ∧ Js.truthy r = false) before →
  callback x = Throw e →
  Js.find callback (before ++ x :: after) = Throw e.
Proof.
  intros Hbefore Hthrow.
  induction Hbefore as [|y rest (r & Hcall & Hfalse) _ IH]; simpl.
  - by rewrite Hthrow.
  - rewrite Hcall. simpl. by rewrite Hfalse.
Qed.

(** The fields of an object literal of the three display fields. *)
Lemma info_fields (title icon description : value) :
  let info : object :=
    {[ js "title" := title; js "icon" := icon;
       js "description" := description ]} in
  Js.own info (js "title") = title
  ∧ Js.own info (js "icon") = icon
  ∧ Js.own info (js "description") = description
  ∧ dom info = list_to_set displayFields.
Proof.
  cbv zeta. repeat split; reflexivity.
Qed.

(** Every way in which [getBlockDisplayInformation] returns: the
    BlockType's own fields, or those overlaid by a stored variation. *)
Lemma returns_cases (host : Host) (state : State) (name : jsstring)
    (attributes : value) (info : object) :
  getBlockDisplayInformation host state name attributes = Ok info →
  ∃ blockType,
    getBlockType state name = Some blockType
    ∧ (info = {[ js "title" := Js.own blockType (js "title");
                 js "icon" := Js.own blockType (js "icon");
                 js "description" := Js.own blockType (js "description") ]}
       ∨ ∃ array match_,
           blockVariations state !! name = Some array
           ∧ match_ ∈ array
           ∧ info = displayInformationWhereTruthy match_ blockType).
Proof.
  unfold getBlockDisplayInformation.
  destruct (getBlockType state name) as [blockType|]; [|done].
  intros Hresult. exists blockType. split; [done|].
  cbn in Hresult.
  destruct (blockVariations state !! name) as [array|] eqn:Harray;
    cbn in Hresult; [|left; by injection Hresult].
  destruct (Js.truthy _) eqn:Hmatcher; cbn in Hresult;
    [|left; by injection Hresult].
  destruct (Js.find _ array) as [found|e] eqn:Hfind; [|done].
  cbn in Hresult. destruct found as [match_|]; cbn in Hresult;
    [|left; by injection Hresult].
  right. exists array, match_. split; [done|]. split.
  - clear Hresult. revert Hfind. generalize array.
    induction array0 as [|x rest IH]; simpl; [done|].
    destruct (Js.callMethod _ _ _ _) as [r|e]; simpl; [|done].
    destruct (Js.truthy r).
    + intros [= ->]. by left.
    + intros Hrest. right. by apply IH.
  - by injection Hresult.
Qed.

End DisplayFacts.

Section DisplayInformationEdges.
Context (host : Host).


(** X4. For a registered block that has no variations stored, an empty
    array of variations, or no truthy [variationMatcher], the result is the
    BlockType's own title, icon and description, for every attributes
    value. *)
Theorem getBlockDisplayInformation_own_fields (state : State)
    (name : jsstring) (attributes : value) (blockType : BlockType) :
  getBlockType state name = Some blockType →
  blockVariations state !! name = None
  ∨ blockVariations state !! name = Some []
  ∨ Js.truthy (Js.own blockType (js "variationMatcher")) = false →
  getBlockDisplayInformation host state name attributes
  = Ok {[ js "title" := Js.own blockType (js "title");
          js "icon" := Js.own blockType (js "icon");
          js "description" := Js.own blockType (js "description") ]}.
Proof.
  intros Htype Hcases. unfold getBlockDisplayInformation. rewrite Htype.
  unfold Js.optionalMember. cbn.
  destruct Hcases as [->|[->|Hmatcher]].
  - done.
  - cbn. by destruct (Js.truthy _).
  - rewrite Hmatcher. cbn. by rewrite orb_true_r.
Qed.

(** X5. When the matcher rejects every stored variation the result is
    the BlockType's own title, icon and description. *)
Theorem getBlockDisplayInformation_all_rejected (state : State)
    (name : jsstring) (attributes : value) (blockType : BlockType) (f : fn)
    (array : list BlockVariation) :
  getBlockType state name = Some blockType →
  Js.own blockType (js "variationMatcher") = VFun f →
  blockVariations state !! name = Some array →
  Forall (matcherRejects host f blockType attributes) array →
  getBlockDisplayInformation host state name attributes
  = Ok {[ js "title" := Js.own blockType (js "title");
          js "icon" := Js.own blockType (js "icon");
          js "description" := Js.own blockType (js "description") ]}.
Proof.
  intros Htype Hmatcher Hvariations Hall.
  unfold getBlockDisplayInformation. rewrite Htype, Hvariations.
  unfold Js.optionalMember. simpl. rewrite !Hmatcher. simpl.
  rewrite JsFacts.find_none; [done|]. exact Hall.
Qed.

(** X6. An error thrown by the matcher on a variation, all variations
    before it having been rejected, is the error the selector throws. *)
Theorem getBlockDisplayInformation_matcher_throws (state : State)
    (name : jsstring) (attributes : value) (blockType : BlockType) (f : fn)
    (before : list BlockVariation) (variation : BlockVariation)
    (after : list BlockVariation) (e : error) :
  getBlockType state name = Some blockType →
  Js.own blockType (js "variationMatcher") = VFun f →
  blockVariations state !! name = Some (before ++ variation :: after) →
  Forall (matcherRejects host f blockType attributes) before →
  call host f (VObj blockType) [attributes; VObj variation] = Throw e →
  getBlockDisplayInformation host state name attributes = Throw e.
Proof.
  intros Htype Hmatcher Hvariations Hbefore Hthrow.
  unfold getBlockDisplayInformation. rewrite Htype, Hvariations.
  unfold Js.optionalMember. simpl. rewrite !Hmatcher. simpl.
  by rewrite (DisplayFacts.find_throws _ before variation after e).
Qed.

(** X7. A [variationMatcher] that is truthy without being a function
    makes the selector throw a TypeError as soon as there is a variation to
    test. *)
Theorem getBlockDisplayInformation_not_callable (state : State)
    (name : jsstring) (attributes : value) (blockType : BlockType)
    (variation : BlockVariation) (rest : list BlockVariation) :
  getBlockType state name = Some blockType →
  Js.truthy (Js.own blockType (js "variationMatcher")) = true →
  (∀ f, Js.own blockType (js "variationMatcher") ≠ VFun f) →
  blockVariations state !! name = Some (variation :: rest) →
  getBlockDisplayInformation host state name attributes = Throw TypeError.
Proof.
  intros Htype Htruthy Hfunction Hvariations.
  unfold getBlockDisplayInformation. rewrite Htype, Hvariations.
  unfold Js.optionalMember. cbn. rewrite Htruthy. cbn.
  destruct (Js.own blockType (js "variationMatcher")) eqn:Hmatcher;
    try done.
  by destruct (Hfunction f).
Qed.

(** X8. Whenever [getBlockDisplayInformation] returns, the object it
    returns has the properties title, icon and description and no other. *)
Theorem getBlockDisplayInformation_shape (state : State) (name : jsstring)
    (attributes : value) (info : object) :
  getBlockDisplayInformation host state name attributes = Ok info →
  dom info = list_to_set displayFields.
Proof.
  intros (blockType & _ & [->|(array & match_ & _ & _ & ->)])%DisplayFacts.returns_cases.
  - apply DisplayFacts.info_fields.
  - apply DisplayFacts.info_fields.
Qed.

(** X9. A field of the result is taken from the BlockType or from one
    of the variations stored for the block, and it is truthy whenever the
    BlockType's own value for it is truthy: an overlay never blanks a
    field. *)
Theorem getBlockDisplayInformation_fallback (state : State) (name : jsstring)
    (attributes : value) (info : object) (blockType : BlockType)
    (k : jsstring) :
  getBlockDisplayInformation host state name attributes = Ok info →
  getBlockType state name = Some blockType →
  k ∈ displayFields →
  (Js.own info k = Js.own blockType k
   ∨ ∃ array match_, blockVariations state !! name = Some array
       ∧ match_ ∈ array
       ∧ Js.own info k = Js.own match_ k
       ∧ Js.truthy (Js.own match_ k) = true)
  ∧ (Js.truthy (Js.own blockType k) = true →
     Js.truthy (Js.own info k) = true).
Proof.
  intros Hresult Htype Hk.
  apply DisplayFacts.returns_cases in Hresult
    as (blockType' & Htype' & Hcases).
  rewrite Htype in Htype'. injection Htype' as <-.
  assert (k = js "title" ∨ k = js "icon" ∨ k = js "description") as Hkey.
  { unfold displayFields in Hk.
    repeat (apply elem_of_cons in Hk as [Hk|Hk]; [tauto|]).
    by apply elem_of_nil in Hk. }
  destruct Hcases as [->|(array & match_ & Harray & Hin & ->)].
  - split; [left|intros Htruthy];
      destruct Hkey as [-> | [-> | ->]]; first [reflexivity | exact Htruthy].
  - assert (Js.own (displayInformationWhereTruthy match_ blockType) k
            = fieldWhereTruthy match_ blockType k) as ->
      by (destruct Hkey as [-> | [-> | ->]]; reflexivity).
    unfold fieldWhereTruthy.
    destruct (Js.truthy (Js.own match_ k)) eqn:Hmatch.
    + split; [|done]. right. by exists array, match_.
    + split; [by left|done].
Qed.

End DisplayInformationEdges.

(** ** Variations: the default one, the default scope, malformed scopes *)

Module VariationFacts.

Lemma filter_throws {A : Type} (callback : A → result value)
    (before : list A) (x : A) (after : list A) (e : error) :
  Forall (fun y => ∃ r, callback y = Ok r) before →
  callback x = Throw e →
  Js.filter callback (before ++ x :: after) = Throw e.
Proof.
  intros Hbefore Hthrow.
  induction Hbefore as [|y rest [r Hcall] _ IH]; simpl.
  - by rewrite Hthrow.
  - rewrite Hcall. simpl. by rewrite IH.
Qed.





End VariationFacts.

Section VariationEdges.
Context (host : Host).



(** X12. A stored variation whose [scope] is truthy without being an
    array, a string or an object (a boolean, a number, a function) makes
    [getBlockVariations] throw a TypeError when a scope tag is given and the
    variations before it follow the data model; without a scope the same
    call returns the stored variations. *)
Theorem getBlockVariations_malformed_scope (state : State)
    (blockName tag : jsstring) (before : list BlockVariation)
    (variation : BlockVariation) (after : list BlockVariation) :
  blockVariations state !! blockName = Some (before ++ variation :: after) →
  Forall scopeWellFormed before →
  Js.truthy (Js.own variation (js "scope")) = true →
  leafValue (Js.own variation (js "scope")) →
  scopeTag tag →
  getBlockVariations host state blockName (Some tag) = Throw TypeError
  ∧ getBlockVariations host state blockName None
    = Ok (Some (before ++ variation :: after)).
Proof.
  intros Hlookup Hbefore Htruthy Hleaf Htag. split.
  - unfold getBlockVariations. rewrite Hlookup.
    assert (Js.truthy (stringValue (Some tag)) = true) as ->.
    { simpl. by rewrite bool_decide_eq_false_2. }
    simpl.
    rewrite (VariationFacts.filter_throws _ before variation after TypeError);
      [done| |].
    + eapply Forall_impl; [exact Hbefore|]. intros v Hv. eexists.
      exact (scope_callback host tag v Hv).
    + unfold Js.or. rewrite Htruthy. revert Hleaf.
      destruct (Js.own variation (js "scope")); simpl; done.
  - by rewrite getBlockVariations_unscoped, Hlookup.
Qed.

(** X13. On a state whose variations follow the data model, a stored
    variation that declares no scope is returned for the scope tags block
    and inserter and for no other tag. *)
Theorem getBlockVariations_default_scope (state : State)
    (blockName tag : jsstring) (stored : list BlockVariation)
    (variation : BlockVariation) :
  variationsWellFormed state →
  blockVariations state !! blockName = Some stored →
  variation ∈ stored →
  Js.own variation (js "scope") = VUndefined →
  scopeTag tag →
  ∃ array,
    getBlockVariations host state blockName (Some tag) = Ok (Some array)
    ∧ (variation ∈ array ↔ tag = js "block" ∨ tag = js "inserter").
Proof.
  intros Hwf Hlookup Hin Hscope Htag.
  rewrite getBlockVariations_tag, Hlookup by done. eexists. split; [done|].
  rewrite list_elem_of_In, filter_In, <-list_elem_of_In.
  assert (effectiveScope variation
          = [VStr (js "block"); VStr (js "inserter")]) as Heffective.
  { unfold effectiveScope. unfold Js.own in Hscope.
    destruct (variation !! js "scope") as [declared|]; [|done].
    simpl in Hscope. by subst. }
  unfold inScope. rewrite Heffective. simpl. rewrite orb_false_r.
  rewrite orb_true_iff, !bool_decide_eq_true. split.
  - intros [_ [<-|<-]]; [by left|by right].
  - intros [->| ->]; split; [done|by left|done|by right].
Qed.

End VariationEdges.

(** ** Search matching: errors, own fields, refinement of the term *)

Module SearchFacts.

Lemma substring_of_refl (s : jsstring) : JsString.substring_of s s.
Proof. exists [], []. by rewrite app_nil_r. Qed.

Lemma substring_of_trans (r s t : jsstring) :
  JsString.substring_of r s → JsString.substring_of s t →
  JsString.substring_of r t.
Proof.
  intros (pre & post & ->) (pre' & post' & ->).
  exists (pre' ++ pre), (post ++ post'). by rewrite <-!app_assoc.
Qed.

Lemma includes_trans (r s t : jsstring) :
  JsString.includes s r = true → JsString.includes t s = true →
  JsString.includes t r = true.
Proof.
  rewrite !JsStringFacts.includes_substring. apply substring_of_trans.
Qed.

Lemma includes_in_nil (t : jsstring) :
  JsString.includes [] t = bool_decide (t = []).
Proof. by destruct t. Qed.

(** The selector on a BlockType value that is neither [undefined] nor
    [null]. *)
Lemma isMatchingSearchTerm_value (host : Host) (state : State)
    (nameOrType : value) (searchTerm : jsstring) :
  Js.nullish (getNormalizedBlockType state nameOrType) = false →
  isMatchingSearchTerm host state nameOrType searchTerm
  = Ok (let blockType := getNormalizedBlockType state nameOrType in
        let isSearchMatch := fun candidate =>
          JsString.includes (getNormalizedSearchTerm host candidate)
            (getNormalizedSearchTerm host (VStr searchTerm)) in
        isSearchMatch (Js.getProp blockType (js "title"))
        || existsb isSearchMatch
             (Lodash.elements (Js.getProp blockType (js "keywords")))
        || isSearchMatch (Js.getProp blockType (js "category"))).
Proof.
  intros Hvalue. unfold isMatchingSearchTerm, Js.member. rewrite Hvalue.
  cbn. unfold Lodash.some.
  destruct (JsString.includes _ _); [done|]. cbn.
  by destruct (existsb _ _).
Qed.

End SearchFacts.

Section SearchEdges.
Context (host : Host).


(** X15. A BlockType is found by its own title, by each of its keywords
    and by its category, when these are strings used as the search term. *)
Theorem isMatchingSearchTerm_own_fields (state : State) (nameOrType : value)
    (blockType : BlockType) (searchTerm : jsstring) :
  getNormalizedBlockType state nameOrType = VObj blockType →
  Js.own blockType (js "title") = VStr searchTerm
  ∨ VStr searchTerm ∈ Lodash.elements (Js.own blockType (js "keywords"))
  ∨ Js.own blockType (js "category") = VStr searchTerm →
  isMatchingSearchTerm host state nameOrType searchTerm = Ok true.
Proof.
  intros Hresolved Hfield.
  rewrite (isMatchingSearchTerm_resolved _ _ _ _ _ Hresolved). cbv zeta.
  f_equal. rewrite !orb_true_iff, existsb_exists.
  assert (JsString.includes (getNormalizedSearchTerm host (VStr searchTerm))
            (getNormalizedSearchTerm host (VStr searchTerm)) = true)
    as Hself
    by apply JsStringFacts.includes_substring, SearchFacts.substring_of_refl.
  destruct Hfield as [->|[Hkeyword| ->]].
  - by left; left.
  - left; right. exists (VStr searchTerm).
    split; [by apply list_elem_of_In|done].
  - by right.
Qed.

(** X16. Shortening the search term never loses a match: when the
    normalized form of one term occurs in the normalized form of another
    term that matches, the former matches too. *)
Theorem isMatchingSearchTerm_refines (state : State) (nameOrType : value)
    (shorter longer : jsstring) :
  JsString.substring_of
    (getNormalizedSearchTerm host (VStr shorter))
    (getNormalizedSearchTerm host (VStr longer)) →
  isMatchingSearchTerm host state nameOrType longer = Ok true →
  isMatchingSearchTerm host state nameOrType shorter = Ok true.
Proof.
  intros Hsub%JsStringFacts.includes_substring.
  destruct (Js.nullish (getNormalizedBlockType state nameOrType)) eqn:Hnull.
  { unfold isMatchingSearchTerm, Js.member. by rewrite Hnull. }
  rewrite !SearchFacts.isMatchingSearchTerm_value by done. cbv zeta.
  intros [= Hlonger]. f_equal. revert Hlonger.
  rewrite !orb_true_iff, !existsb_exists.
  intros [[Htitle|(keyword & Hin & Hkeyword)]|Hcategory].
  - left; left. by eapply SearchFacts.includes_trans.
  - left; right. exists keyword. split; [done|].
    by eapply SearchFacts.includes_trans.
  - right. by eapply SearchFacts.includes_trans.
Qed.

(** X17. A BlockType that has no title, no keywords and no category is
    matched by the search terms that normalize to the empty string and by
    no other term; the missing fields do not make the selector throw. *)
Theorem isMatchingSearchTerm_no_fields (state : State) (nameOrType : value)
    (blockType : BlockType) (searchTerm : jsstring) :
  lowerCaseKeepsWhiteSpace host →
  getNormalizedBlockType state nameOrType = VObj blockType →
  Js.own blockType (js "title") = VUndefined →
  Js.own blockType (js "keywords") = VUndefined →
  Js.own blockType (js "category") = VUndefined →
  isMatchingSearchTerm host state nameOrType searchTerm
  = Ok (bool_decide (getNormalizedSearchTerm host (VStr searchTerm) = [])).
Proof.
  intros Hlower Hresolved Htitle Hkeywords Hcategory.
  rewrite (isMatchingSearchTerm_resolved _ _ _ _ _ Hresolved). cbv zeta.
  rewrite Htitle, Hkeywords, Hcategory.
  assert (getNormalizedSearchTerm host VUndefined = []) as ->.
  { unfold getNormalizedSearchTerm. apply trim_whiteSpace, Hlower.
    apply Forall_nil_2. }
  rewrite SearchFacts.includes_in_nil. simpl.
  by rewrite orb_false_r, orb_diag.
Qed.

End SearchEdges.

(** ** Children *)

Module ChildFacts.

Lemma filter_keys_NoDup {A : Type} (keep : jsstring * A → bool)
    (o : list (jsstring * A)) :
  NoDup o.*1 → NoDup (List.filter keep o).*1.
Proof.
  induction o as [|[k x] rest IH]; simpl; [done|].
  intros [Hfresh Hrest]%NoDup_cons.
  destruct (keep (k, x)); simpl; [|by apply IH].
  apply NoDup_cons. split; [|by apply IH].
  intros ([k' x'] & -> & Hin%list_elem_of_In%filter_In)%list_elem_of_fmap.
  apply Hfresh, list_elem_of_fmap. exists (k', x'). split; [done|].
  apply list_elem_of_In. tauto.
Qed.

Lemma hasChildBlocks_length (state : State) (blockName : jsstring) :
  hasChildBlocks state blockName = true ↔
    getChildBlockNames state blockName ≠ [].
Proof.
  unfold hasChildBlocks. rewrite bool_decide_eq_true.
  destruct (getChildBlockNames state blockName); simpl; split;
    first [done | lia].
Qed.

End ChildFacts.

Section ChildEdges.

(** X18. A block with a child that supports the inserter has children:
    [hasChildBlocksWithInserterSupport] implies [hasChildBlocks], on every
    state; and [hasChildBlocks] is false exactly when [getChildBlockNames]
    returns the empty sequence. *)
Theorem hasChildBlocksWithInserterSupport_hasChildBlocks (state : State)
    (blockName : jsstring) :
  hasChildBlocksWithInserterSupport state blockName = true →
  hasChildBlocks state blockName = true
  ∧ getChildBlockNames state blockName ≠ [].
Proof.
  unfold hasChildBlocksWithInserterSupport, Lodash.some.
  cbn [Lodash.elements]. intros (child & Hin & _)%existsb_exists.
  assert (getChildBlockNames state blockName ≠ []) as Hnames.
  { intros Hnil. rewrite Hnil in Hin. by destruct Hin. }
  split; [|done]. by apply ChildFacts.hasChildBlocks_length.
Qed.

(** X19. On a type map that holds every BlockType once under its own
    name, [hasChildBlocks] is true exactly when some registered BlockType
    has the block name in its parent list. *)
Theorem hasChildBlocks_iff (state : State) (blockName : jsstring) :
  registryWellFormed state →
  hasChildBlocks state blockName = true ↔
    ∃ name blockType, getBlockType state name = Some blockType
      ∧ VStr blockName ∈ parentList blockType.
Proof.
  intros Hwf. rewrite ChildFacts.hasChildBlocks_length.
  rewrite getChildBlockNames_filter by done. split.
  - intros Hnames.
    destruct (List.filter _ (blockTypes state)).*1 as [|name names] eqn:Hkeys;
      [done|].
    assert (name ∈ (List.filter (fun entry => isChildOf blockName entry.2)
                      (blockTypes state)).*1) as Hin
      by (rewrite Hkeys; by left).
    apply elem_of_children in Hin as (blockType & Hlookup & Hchild); [|done].
    exists name, blockType. split; [done|].
    by apply isChildOf_parentList.
  - intros (name & blockType & Hlookup & Hparent).
    assert (name ∈ (List.filter (fun entry => isChildOf blockName entry.2)
                      (blockTypes state)).*1) as Hin.
    { apply elem_of_children; [done|]. exists blockType.
      split; [done|]. by apply isChildOf_parentList. }
    intros Hnil. apply fmap_nil_inv in Hnil. rewrite Hnil in Hin.
    by apply elem_of_nil in Hin.
Qed.

(** X20. On a type map that holds every BlockType once under its own
    name, [getChildBlockNames] lists no name twice, and it lists at most as
    many names as there are registered BlockTypes. *)
Theorem getChildBlockNames_NoDup (state : State) (blockName : jsstring) :
  registryWellFormed state →
  NoDup (getChildBlockNames state blockName)
  ∧ length (getChildBlockNames state blockName)
    ≤ length (blockTypes state).
Proof.
  intros Hwf. rewrite getChildBlockNames_filter by done.
  destruct Hwf as [Hnodup _]. split.
  - apply NoDup_fmap_2; [by intros ?? [= ->]|].
    by apply ChildFacts.filter_keys_NoDup.
  - rewrite !length_fmap. apply filter_length_le.
Qed.

End ChildEdges.

(** ** Support introspection: nested paths and dead ends *)

Module SupportFacts.



End SupportFacts.

Section SupportEdges.

(** X21. When a default other than [undefined] is given,
    [getBlockSupport] never returns [undefined], whatever the name or type
    and the feature path. *)
Theorem getBlockSupport_defined (state : State) (nameOrType : value)
    (feature : jsstring) (defaultSupports : value) :
  defaultSupports ≠ VUndefined →
  getBlockSupport state nameOrType feature defaultSupports ≠ VUndefined.
Proof.
  intros Hdefault. unfold getBlockSupport, Lodash.get.
  destruct (if Js.nullish _ then _ else _); done.
Qed.



End SupportEdges.

(** ** Memoisation *)

Section Memoisation.
Context (host : Host).

(** X24. The memoised selectors depend on the state through their
    declared dependants only: two states with the same type map give the
    same child names, and with the same variation map besides, the same
    block types. *)
Theorem memoised_selectors_dependants (state state' : State) :
  blockTypes state = blockTypes state' →
  (∀ blockName,
     getChildBlockNames state blockName = getChildBlockNames state' blockName)
  ∧ (blockVariations state = blockVariations state' →
     getBlockTypes host state = getBlockTypes host state').
Proof.
  intros Htypes. split.
  - intros blockName. by apply getChildBlockNames_dependants.
  - intros Hvariations. by apply getBlockTypes_dependants.
Qed.

End Memoisation.

(** ** The further properties at work on the example states *)


Lemma nameOrType_resolution_witness :
  getBlockType exampleState (js "core/columns") = Some columnsType
  ∧ getBlockSupport exampleState (VStr (js "core/columns")) (js "html")
      (VBool true)
    = getBlockSupport orphanState (VObj columnsType) (js "html") (VBool true).
Proof.
  assert (getBlockType exampleState (js "core/columns") = Some columnsType)
    as Htype by reflexivity.
  split; [exact Htype|].
  apply (nameOrType_resolution exampleHost exampleState orphanState
           (js "core/columns") columnsType (js "html") (VBool true) []
           Htype).
Defined.


Lemma getBlockDisplayInformation_own_fields_witness :
  getBlockType exampleState (js "core/columns") = Some columnsType
  ∧ Js.truthy (Js.own columnsType (js "variationMatcher")) = false
  ∧ getBlockDisplayInformation exampleHost exampleState (js "core/columns")
      (embedOf "vimeo")
    = Ok {[ js "title" := VStr (js "Columns"); js "icon" := VUndefined;
            js "description" := VUndefined ]}.
Proof.
  split; [reflexivity|]. split; [reflexivity|].
  rewrite (getBlockDisplayInformation_own_fields exampleHost exampleState
             (js "core/columns") (embedOf "vimeo") columnsType);
    [reflexivity|reflexivity|right; right; reflexivity].
Defined.

Lemma getBlockDisplayInformation_all_rejected_witness :
  Forall (matcherRejects exampleHost 0 embedType (embedOf "flickr"))
    [twitterVariation; youtubeVariation; vimeoVariation]
  ∧ getBlockDisplayInformation exampleHost exampleState (js "core/embed")
      (embedOf "flickr")
    = Ok {[ js "title" := VStr (js "Embed");
            js "icon" := VStr (js "embed-generic");
            js "description" :=
              VStr (js "Embed videos, images, tweets and audio.") ]}.
Proof.
  assert (Forall (matcherRejects exampleHost 0 embedType (embedOf "flickr"))
            [twitterVariation; youtubeVariation; vimeoVariation]) as Hall
    by each_element ltac:(eexists; split; reflexivity).
  split; [exact Hall|].
  rewrite (getBlockDisplayInformation_all_rejected exampleHost exampleState
             (js "core/embed") (embedOf "flickr") embedType 0
             [twitterVariation; youtubeVariation; vimeoVariation]);
    [reflexivity|reflexivity|reflexivity|reflexivity|exact Hall].
Defined.

Lemma getBlockDisplayInformation_matcher_throws_witness :
  getBlockType oddState (js "core/faulty") = Some faultyType
  ∧ call exampleHost 1 (VObj faultyType) [embedOf "twitter"; VObj twitterVariation]
    = Throw TypeError
  ∧ getBlockDisplayInformation exampleHost oddState (js "core/faulty")
      (embedOf "twitter")
    = Throw TypeError.
Proof.
  split; [reflexivity|]. split; [reflexivity|].
  apply (getBlockDisplayInformation_matcher_throws exampleHost oddState
           (js "core/faulty") (embedOf "twitter") faultyType 1
           [] twitterVariation []);
    [reflexivity|reflexivity|reflexivity|apply Forall_nil_2|reflexivity].
Defined.

Lemma getBlockDisplayInformation_not_callable_witness :
  getBlockType oddState (js "core/odd") = Some oddType
  ∧ Js.own oddType (js "variationMatcher") = VStr (js "yes")
  ∧ getBlockDisplayInformation exampleHost oddState (js "core/odd")
      (embedOf "twitter")
    = Throw TypeError.
Proof.
  split; [reflexivity|]. split; [reflexivity|].
  apply (getBlockDisplayInformation_not_callable exampleHost oddState
           (js "core/odd") (embedOf "twitter") oddType twitterVariation []);
    [reflexivity|reflexivity| |reflexivity].
  intros f Hmatcher. discriminate Hmatcher.
Defined.

Lemma getBlockDisplayInformation_shape_witness :
  ∃ info,
    getBlockDisplayInformation exampleHost exampleState (js "core/embed")
      (embedOf "twitter") = Ok info
    ∧ dom info = list_to_set displayFields.
Proof.
  eexists. split; [reflexivity|].
  apply (getBlockDisplayInformation_shape exampleHost exampleState
           (js "core/embed") (embedOf "twitter")).
  reflexivity.
Defined.

Lemma getBlockDisplayInformation_fallback_witness :
  ∃ info,
    getBlockDisplayInformation exampleHost exampleState (js "core/embed")
      (embedOf "youtube") = Ok info
    ∧ Js.truthy (Js.own embedType (js "description")) = true
    ∧ Js.truthy (Js.own info (js "description")) = true.
Proof.
  eexists. split; [reflexivity|]. split; [reflexivity|].
  apply (getBlockDisplayInformation_fallback exampleHost exampleState
           (js "core/embed") (embedOf "youtube") _ embedType
           (js "description"));
    [reflexivity|reflexivity| |reflexivity].
  unfold displayFields. right; right; left.
Defined.



Lemma getBlockVariations_malformed_scope_witness :
  blockVariations oddState !! js "core/bare"
  = Some ([equalColumns] ++ malformedVariation :: [])
  ∧ Js.own malformedVariation (js "scope") = VBool true
  ∧ getBlockVariations exampleHost oddState (js "core/bare")
      (Some (js "block")) = Throw TypeError.
Proof.
  assert (blockVariations oddState !! js "core/bare"
          = Some ([equalColumns] ++ malformedVariation :: [])) as Hlookup
    by reflexivity.
  split; [exact Hlookup|]. split; [reflexivity|].
  apply (getBlockVariations_malformed_scope exampleHost oddState
           (js "core/bare") (js "block") [equalColumns] malformedVariation []
           Hlookup).
  - each_element absent_or_array.
  - reflexivity.
  - exact I.
  - intros Hempty. vm_compute in Hempty. discriminate Hempty.
Defined.

Lemma getBlockVariations_default_scope_witness :
  variationsWellFormed exampleState
  ∧ Js.own thirdsColumns (js "scope") = VUndefined
  ∧ ∃ array,
      getBlockVariations exampleHost exampleState (js "core/columns")
        (Some (js "block")) = Ok (Some array)
      ∧ thirdsColumns ∈ array.
Proof.
  split; [exact exampleState_variations|]. split; [reflexivity|].
  destruct (getBlockVariations_default_scope exampleHost exampleState
              (js "core/columns") (js "block")
              [equalColumns; thirdsColumns; threeColumns] thirdsColumns
              exampleState_variations)
    as (array & Harray & Hiff).
  - reflexivity.
  - right; left.
  - reflexivity.
  - intros Hempty. vm_compute in Hempty. discriminate Hempty.
  - exists array. split; [exact Harray|]. apply Hiff. by left.
Defined.

Lemma isMatchingSearchTerm_own_fields_witness :
  getNormalizedBlockType exampleState (VStr (js "core/columns"))
  = VObj columnsType
  ∧ VStr (js "grid") ∈ Lodash.elements (Js.own columnsType (js "keywords"))
  ∧ isMatchingSearchTerm exampleHost exampleState (VStr (js "core/columns"))
      (js "grid") = Ok true.
Proof.
  assert (VStr (js "grid")
          ∈ Lodash.elements (Js.own columnsType (js "keywords"))) as Hkeyword.
  { change (Lodash.elements (Js.own columnsType (js "keywords")))
      with [VStr (js "layout"); VStr (js "grid")].
    right; left. }
  split; [reflexivity|]. split; [exact Hkeyword|].
  apply (isMatchingSearchTerm_own_fields exampleHost exampleState
           (VStr (js "core/columns")) columnsType (js "grid"));
    [reflexivity|right; left; exact Hkeyword].
Defined.

Lemma isMatchingSearchTerm_refines_witness :
  JsString.substring_of
    (getNormalizedSearchTerm exampleHost (VStr (js "Lib")))
    (getNormalizedSearchTerm exampleHost (VStr (js " Media Library ")))
  ∧ isMatchingSearchTerm exampleHost exampleState (VStr (js "core/media"))
      (js "Lib") = Ok true.
Proof.
  assert (JsString.substring_of
            (getNormalizedSearchTerm exampleHost (VStr (js "Lib")))
            (getNormalizedSearchTerm exampleHost
               (VStr (js " Media Library ")))) as Hsub.
  { exists (js "media "), (js "rary"). reflexivity. }
  split; [exact Hsub|].
  apply (isMatchingSearchTerm_refines exampleHost exampleState
           (VStr (js "core/media")) (js "Lib") (js " Media Library ") Hsub).
  reflexivity.
Defined.

Lemma isMatchingSearchTerm_no_fields_witness :
  lowerCaseKeepsWhiteSpace exampleHost
  ∧ getNormalizedBlockType oddState (VStr (js "core/bare")) = VObj bareType
  ∧ isMatchingSearchTerm exampleHost oddState (VStr (js "core/bare"))
      (js "bare") = Ok false
  ∧ isMatchingSearchTerm exampleHost oddState (VStr (js "core/bare"))
      (js "  ") = Ok true.
Proof.
  split; [exact exampleHost_lowerCaseKeepsWhiteSpace|].
  split; [reflexivity|]. split.
  - rewrite (isMatchingSearchTerm_no_fields exampleHost oddState
               (VStr (js "core/bare")) bareType (js "bare")
               exampleHost_lowerCaseKeepsWhiteSpace);
      reflexivity.
  - rewrite (isMatchingSearchTerm_no_fields exampleHost oddState
               (VStr (js "core/bare")) bareType (js "  ")
               exampleHost_lowerCaseKeepsWhiteSpace);
      reflexivity.
Defined.

Lemma hasChildBlocksWithInserterSupport_hasChildBlocks_witness :
  hasChildBlocksWithInserterSupport familyState (js "core/list") = true
  ∧ hasChildBlocks familyState (js "core/list") = true.
Proof.
  split; [reflexivity|].
  apply (hasChildBlocksWithInserterSupport_hasChildBlocks familyState
           (js "core/list")).
  reflexivity.
Defined.

Lemma hasChildBlocks_iff_witness :
  registryWellFormed exampleState
  ∧ ∃ name blockType,
      getBlockType exampleState name = Some blockType
      ∧ VStr (js "core/columns") ∈ parentList blockType.
Proof.
  split; [exact exampleState_registry|].
  apply (hasChildBlocks_iff exampleState (js "core/columns")
           exampleState_registry).
  reflexivity.
Defined.

Lemma getChildBlockNames_NoDup_witness :
  registryWellFormed exampleState
  ∧ NoDup (getChildBlockNames exampleState (js "core/columns")).
Proof.
  split; [exact exampleState_registry|].
  apply (getChildBlockNames_NoDup exampleState (js "core/columns")
           exampleState_registry).
Defined.

Lemma getBlockSupport_defined_witness :
  VBool false ≠ VUndefined
  ∧ getBlockSupport exampleState (VStr (js "core/image")) (js "align")
      (VBool false) ≠ VUndefined.
Proof.
  assert (VBool false ≠ VUndefined) as Hdefault by discriminate.
  split; [exact Hdefault|].
  apply (getBlockSupport_defined exampleState (VStr (js "core/image"))
           (js "align") (VBool false) Hdefault).
Defined.



Lemma memoised_selectors_dependants_witness :
  blockTypes exampleState = blockTypes restyledState
  ∧ defaultBlockName exampleState ≠ defaultBlockName restyledState
  ∧ getChildBlockNames exampleState (js "core/columns")
    = getChildBlockNames restyledState (js "core/columns")
  ∧ getBlockTypes exampleHost exampleState
    = getBlockTypes exampleHost restyledState.
Proof.
  split; [reflexivity|]. split.
  { intros Heq. vm_compute in Heq. discriminate Heq. }
  destruct (memoised_selectors_dependants exampleHost exampleState
              restyledState eq_refl) as [Hnames Htypes].
  split; [apply Hnames|]. apply Htypes. reflexivity.
Defined.
